(** * DataPantry client: query builder, condition helpers and schema normaliser

    A shallow embedding of [src/index.ts].  Every builder class of the source
    is a module here; a method that mutates [this] and returns it becomes a
    function from the builder state to the new builder state, so a chain
    [b.from(t).where(c)] reads [where_ (from b t) c].  Methods that await the
    database take the database's [sql] method as their first argument and live
    in the error monad [sum JsError]: [inl] is a thrown exception or a rejected
    promise, [inr] a returned value or a fulfilled promise.

    Texts are [string]s over 8-bit characters; the statements the builders
    assemble are ASCII apart from what the caller passes in. *)

From Stdlib Require Import String Ascii List ZArith Bool Arith Lia DecimalString.
From ExtLib Require Import Structures.Monad Data.Monads.EitherMonad.
Import ListNotations.
Import MonadNotation.
Open Scope list_scope.
Open Scope string_scope.
Open Scope monad_scope.

(** ** JavaScript values *)

(** The values that occur as bound parameters, as row fields and as results:
    scalars, and objects whose own properties are listed in [Object.keys]
    order.  [JNum] covers the safe integers (magnitude up to 2^53 - 1), which
    is what the catalog flags, counts and the examples of the specification
    use; the numbers of [limit] and [offset] are [JsNumber]s below. *)
#[warnings="-register-all"]
Inductive JsValue : Type :=
| JUndefined
| JNull
| JBool (b : bool)
| JNum (z : Z)
| JStr (s : string)
| JObj (fields : list (string * JsValue)).

(** A plain object used as a record: its own enumerable properties in
    [Object.keys] order. *)
Definition JsObject : Type := list (string * JsValue).

(** [Object.keys(o)]. *)
Definition keys (o : JsObject) : list string := map fst o.

(** [o[k]]: the property's value, [undefined] when [o] has no such property.
    The keys in use are data keys: none is the name of a member that every
    object inherits ([constructor], [toString], [__proto__] and the like),
    which [o[k]] would find where [o] has no property of its own. *)
Fixpoint prop (o : JsObject) (k : string) : JsValue :=
  match o with
  | [] => JUndefined
  | (k', v) :: o' => if String.eqb k' k then v else prop o' k
  end.

(** What a call can throw or a promise reject with. *)
Inductive JsError : Type :=
| TypeError
| Error (message : string).

(** [v.k] on an arbitrary value, for the property names the source reads
    ([name], [type], [pk], [notnull], [from], [table], [to], [count]): reading
    a property of [undefined] or [null] throws, and no scalar has one of these
    properties. *)
Definition member (v : JsValue) (k : string) : JsError + JsValue :=
  match v with
  | JUndefined | JNull => inl TypeError
  | JObj o => inr (prop o k)
  | _ => inr JUndefined
  end.

(** ToBoolean. *)
Definition truthy (v : JsValue) : bool :=
  match v with
  | JUndefined | JNull => false
  | JBool b => b
  | JNum z => negb (Z.eqb z 0)
  | JStr s => negb (String.eqb s "")
  | JObj _ => true
  end.

(** [a || b]. *)
Definition js_or (a b : JsValue) : JsValue := if truthy a then a else b.

(** [a === b] on values that came out of one JSON document: two objects are
    never the same reference. *)
Definition strict_eq (a b : JsValue) : bool :=
  match a, b with
  | JUndefined, JUndefined => true
  | JNull, JNull => true
  | JBool x, JBool y => Bool.eqb x y
  | JNum x, JNum y => Z.eqb x y
  | JStr x, JStr y => String.eqb x y
  | _, _ => false
  end.

(** [arr[0]]. *)
Definition index0 (arr : list JsValue) : JsValue :=
  match arr with
  | [] => JUndefined
  | v :: _ => v
  end.

(** A value that is an object, as the rows of a result are. *)
Definition isRow (v : JsValue) : bool :=
  match v with JObj _ => true | _ => false end.

(** ** Texts *)

(** The double-quote character and an identifier wrapped in it, as the
    template literals of the source write it. *)
Definition dq : string := String "034"%char EmptyString.

Definition quoted (s : string) : string := dq ++ s ++ dq.

(** The line feed, as it stands in the multi-line template literal of
    [schema]. *)
Definition nl : string := String "010"%char EmptyString.

(** [arr.join(sep)] on an array of strings. *)
Definition join (sep : string) (arr : list string) : string :=
  String.concat sep arr.

(** [s.includes(p)]: [p] occurs in [s] as a substring. *)
Fixpoint includes (s p : string) : bool :=
  prefix p s ||
  match s with
  | EmptyString => false
  | String _ s' => includes s' p
  end.

(** ToString of a [JNum], a safe integer: its decimal digits. *)
Definition numberToString (n : Z) : string :=
  NilZero.string_of_int (Z.to_int n).

(** ToString of a value, as template interpolation applies it. *)
Definition toString (v : JsValue) : string :=
  match v with
  | JUndefined => "undefined"
  | JNull => "null"
  | JBool true => "true"
  | JBool false => "false"
  | JNum z => numberToString z
  | JStr s => s
  | JObj _ => "[object Object]"
  end.

(** [s.toUpperCase()] on ASCII text. *)
Definition upper_char (c : ascii) : ascii :=
  let n := nat_of_ascii c in
  if (97 <=? n)%nat && (n <=? 122)%nat then ascii_of_nat (n - 32) else c.

Fixpoint toUpperCase (s : string) : string :=
  match s with
  | EmptyString => EmptyString
  | String c s' => String (upper_char c) (toUpperCase s')
  end.

(** The number of [?] placeholders of a text. *)
Fixpoint placeholders (s : string) : nat :=
  match s with
  | EmptyString => 0
  | String c s' => (if Ascii.eqb c "?" then 1 else 0) + placeholders s'
  end.

(** A text without placeholder. *)
Definition plain (s : string) : bool := Nat.eqb (placeholders s) 0.

(** The number of occurrences of the substring [p] in [s]. *)
Fixpoint occurrences (p s : string) : nat :=
  (if prefix p s then 1 else 0) +
  match s with
  | EmptyString => 0
  | String _ s' => occurrences p s'
  end.

(** A text in which the character [c] does not occur. *)
Fixpoint lacks (c : ascii) (s : string) : bool :=
  match s with
  | EmptyString => true
  | String x s' => negb (Ascii.eqb x c) && lacks c s'
  end.

(** A text without a space character. *)
Definition spaceless (s : string) : bool := lacks " " s.

(** A text that is empty or starts with a space. *)
Definition startsBlank (s : string) : bool :=
  match s with
  | EmptyString => true
  | String c _ => Ascii.eqb c " "
  end.

(** ** The regular expression of [count] *)

(** [s] without its first [n] characters. *)
Fixpoint skip (n : nat) (s : string) : string :=
  match n, s with
  | O, _ => s
  | S n', String _ s' => skip n' s'
  | S _, EmptyString => EmptyString
  end.

(** The characters the regular expression's [.] refuses, among 8-bit
    characters: line feed and carriage return. *)
Definition lineTerminator (c : ascii) : bool :=
  Ascii.eqb c "010" || Ascii.eqb c "013".

(** A text without line terminator. *)
Fixpoint singleLine (s : string) : bool :=
  match s with
  | EmptyString => true
  | String c s' => negb (lineTerminator c) && singleLine s'
  end.

(** Matching [.* FROM] at the start of [s], greedily: [.*] first takes as many
    characters of the line as it can and gives them back one at a time until
    [ FROM] follows.  The result is what is left of [s] after the match. *)
Fixpoint matchDotStarFROM (s : string) : option string :=
  let here := if prefix " FROM" s then Some (skip 5 s) else None in
  match s with
  | EmptyString => here
  | String c s' =>
      if lineTerminator c then here
      else match matchDotStarFROM s' with
           | Some rest => Some rest
           | None => here
           end
  end.

(** Matching [/SELECT .* FROM/] at the start of [s]. *)
Definition matchSelectFrom (s : string) : option string :=
  if prefix "SELECT " s then matchDotStarFROM (skip 7 s) else None.

(** [s.replace(/SELECT .* FROM/, r)] for a replacement text [r] without [$]:
    the leftmost match is replaced, a text without a match is returned as it
    is. *)
Fixpoint replaceSelectFrom (s r : string) : string :=
  match matchSelectFrom s with
  | Some rest => r ++ rest
  | None =>
      match s with
      | EmptyString => EmptyString
      | String c s' => String c (replaceSelectFrom s' r)
      end
  end.

(** The regular expression matches somewhere in [s]. *)
Fixpoint testSelectFrom (s : string) : bool :=
  match matchSelectFrom s with
  | Some _ => true
  | None =>
      match s with
      | EmptyString => false
      | String _ s' => testSelectFrom s'
      end
  end.

(** The replacement text of [count]. *)
Definition countClause : string := "SELECT COUNT(*) as count FROM".

(** ** Numbers in a template literal

    A number as [Number::toString] sees it: not a number, an infinity, a zero
    of either sign, or a finite number [s * 10 ^ (n - k)] of either sign,
    where [s] is the integer of the [k] shortest decimal digits that tell the
    number from its neighbours ([s] is no multiple of ten), so that [n]
    counts the digits before the decimal point.  Ten is [Finite false 1 2],
    one and a half [Finite false 15 1], and 10^21 is [Finite false 1 22]. *)
Inductive JsNumber : Type :=
| NaN
| Infinity (negative : bool)
| Zero
| Finite (negative : bool) (s : positive) (n : Z).

(** The decimal digits of [s]. *)
Definition digitsOf (s : positive) : string :=
  NilEmpty.string_of_uint (Pos.to_uint s).

Fixpoint zeros (count : nat) : string :=
  match count with
  | O => EmptyString
  | S count' => String "0" (zeros count')
  end.

(** The first [n] characters of [s]. *)
Fixpoint firstChars (n : nat) (s : string) : string :=
  match n, s with
  | S n', String c s' => String c (firstChars n' s')
  | _, _ => EmptyString
  end.

(** The exponent part: the sign and the decimal digits of [e], which is not
    zero where it is printed. *)
Definition exponentText (e : Z) : string :=
  (if (e <? 0)%Z then "-" else "+") ++ numberToString (Z.abs e).

(** [Number::toString] of the positive number with the digits [s] and the
    point position [n]: plain digits with zeros appended up to 21 digits, a
    decimal point inside the digits, a fraction with up to five zeros after
    the point, and the exponent notation for everything else. *)
Definition positiveText (s : positive) (n : Z) : string :=
  let digits := digitsOf s in
  let k := Z.of_nat (String.length digits) in
  if ((k <=? n) && (n <=? 21))%Z then
    digits ++ zeros (Z.to_nat (n - k))
  else if ((0 <? n) && (n <=? 21))%Z then
    firstChars (Z.to_nat n) digits ++ "." ++ skip (Z.to_nat n) digits
  else if ((-6 <? n) && (n <=? 0))%Z then
    "0." ++ zeros (Z.to_nat (- n)) ++ digits
  else if (k =? 1)%Z then
    digits ++ "e" ++ exponentText (n - 1)
  else
    firstChars 1 digits ++ "." ++ skip 1 digits ++ "e" ++ exponentText (n - 1).

(** Template interpolation of a number, [`${n}`]. *)
Definition numberText (x : JsNumber) : string :=
  match x with
  | NaN => "NaN"
  | Infinity false => "Infinity"
  | Infinity true => "-Infinity"
  | Zero => "0"
  | Finite negative s n => (if negative then "-" else "") ++ positiveText s n
  end.

(** ** The database's [sql] method

    [sql(query, ...params)] posts the statement and resolves to the rows of
    the answer, or rejects with [Error(statusMessage || 'Query failed')].  The
    transport is outside this development: the builders are given the method
    as a function. *)
Definition Executor : Type := string -> list JsValue -> JsError + list JsValue.

(** An executor that knows one statement and answers it with the given rows. *)
Definition answering (statement : string) (rows : list JsValue) : Executor :=
  fun query _ =>
    if String.eqb query statement then inr rows else inl (Error "Query failed").

(** ** WHERE condition helpers *)

Module WhereCondition.
Record t : Type := mk { sql : string; params : list JsValue }.
End WhereCondition.

Module Conditions.
Import WhereCondition.

Definition eq (column : string) (value : JsValue) : WhereCondition.t :=
  {| sql := quoted column ++ " = ?"; params := [value] |}.

Definition ne (column : string) (value : JsValue) : WhereCondition.t :=
  {| sql := quoted column ++ " != ?"; params := [value] |}.

Definition gt (column : string) (value : JsValue) : WhereCondition.t :=
  {| sql := quoted column ++ " > ?"; params := [value] |}.

Definition gte (column : string) (value : JsValue) : WhereCondition.t :=
  {| sql := quoted column ++ " >= ?"; params := [value] |}.

Definition lt (column : string) (value : JsValue) : WhereCondition.t :=
  {| sql := quoted column ++ " < ?"; params := [value] |}.

Definition lte (column : string) (value : JsValue) : WhereCondition.t :=
  {| sql := quoted column ++ " <= ?"; params := [value] |}.

Definition like (column : string) (pattern : string) : WhereCondition.t :=
  {| sql := quoted column ++ " LIKE ?"; params := [JStr pattern] |}.

Definition inArray (column : string) (values : list JsValue) : WhereCondition.t :=
  let placeholders := join ", " (map (fun _ => "?") values) in
  {| sql := quoted column ++ " IN (" ++ placeholders ++ ")"; params := values |}.
End Conditions.

(** A condition with as many placeholders as bound values; the condition
    helpers produce such conditions. *)
Definition alignedCondition (c : WhereCondition.t) : bool :=
  Nat.eqb (placeholders (WhereCondition.sql c)) (List.length (WhereCondition.params c)).

(** ** The builders *)

(** The base class: the accumulated statement text and its positional
    parameters. *)
Module QueryBuilder.
Record t : Type := mk { query : string; params : list JsValue }.

(** [execute()]: hand the statement to the database. *)
Definition execute (sql : Executor) (b : t) : JsError + list JsValue :=
  sql (query b) (params b).

(** Awaiting a builder ([then], [catch], [finally]) runs [execute] once and
    passes its outcome on. *)
Definition await (sql : Executor) (b : t) : JsError + list JsValue :=
  execute sql b.
End QueryBuilder.

(** The [direction] of [orderBy], ['ASC'] when the caller leaves it out. *)
Inductive Direction : Type := ASC | DESC.

Definition directionText (d : Direction) : string :=
  match d with ASC => "ASC" | DESC => "DESC" end.

Module SelectQueryBuilder.
Import QueryBuilder.
Definition t : Type := QueryBuilder.t.

Definition new (columns : list string) : t :=
  let cols := if Nat.eqb (List.length columns) 0 then "*" else join ", " columns in
  {| query := "SELECT " ++ cols; params := [] |}.

Definition from (b : t) (table : string) : t :=
  {| query := query b ++ " FROM " ++ quoted table; params := params b |}.

Definition where_ (b : t) (condition : WhereCondition.t) : t :=
  {| query :=
       if includes (query b) "WHERE"
       then query b ++ " AND " ++ WhereCondition.sql condition
       else query b ++ " WHERE " ++ WhereCondition.sql condition;
     params := (params b ++ WhereCondition.params condition)%list |}.

Definition orWhere (b : t) (condition : WhereCondition.t) : t :=
  {| query :=
       if includes (query b) "WHERE"
       then query b ++ " OR " ++ WhereCondition.sql condition
       else query b ++ " WHERE " ++ WhereCondition.sql condition;
     params := (params b ++ WhereCondition.params condition)%list |}.

Definition orderBy (b : t) (column : string) (direction : Direction) : t :=
  {| query := query b ++ " ORDER BY " ++ quoted column ++ " " ++ directionText direction;
     params := params b |}.

Definition limit (b : t) (n : JsNumber) : t :=
  {| query := query b ++ " LIMIT " ++ numberText n; params := params b |}.

Definition offset (b : t) (n : JsNumber) : t :=
  {| query := query b ++ " OFFSET " ++ numberText n; params := params b |}.

Definition join (b : t) (table : string) (condition : string) : t :=
  {| query := query b ++ " INNER JOIN " ++ quoted table ++ " ON " ++ condition;
     params := params b |}.

Definition leftJoin (b : t) (table : string) (condition : string) : t :=
  {| query := query b ++ " LEFT JOIN " ++ quoted table ++ " ON " ++ condition;
     params := params b |}.

(** [first()]: [results[0] || null]. *)
Definition first (sql : Executor) (b : t) : JsError + JsValue :=
  results <- execute sql b ;;
  ret (js_or (index0 results) JNull).

(** [count()]: the statement with its SELECT clause replaced, then
    [result[0].count]. *)
Definition count (sql : Executor) (b : t) : JsError + JsValue :=
  let countQuery := replaceSelectFrom (query b) countClause in
  result <- sql countQuery (params b) ;;
  member (index0 result) "count".
End SelectQueryBuilder.

(** What [count] does with the answer of the database: [result[0].count]. *)
Definition countField (result : list JsValue) : JsError + JsValue :=
  member (index0 result) "count".

(** The argument of [values] where it is what the method is written for: one
    row object or an array of row objects.  Other arguments ([null],
    [undefined], arrays that hold them) are outside this type. *)
Inductive InsertData : Type :=
| OneRow (row : JsObject)
| Rows (rows : list JsObject).

Module InsertQueryBuilder.
Record t : Type := mk { table : string; query : string; params : list JsValue }.

Definition new (table : string) : t :=
  {| table := table; query := ""; params := [] |}.

(** [values(data)].  [Object.keys(rows[0])] throws on an empty array. *)
Definition values (b : t) (data : InsertData) : JsError + t :=
  let rows := match data with Rows rs => rs | OneRow r => [r] end in
  match rows with
  | [] => inl TypeError
  | row0 :: _ =>
      let columns := keys row0 in
      let columnNames := join ", " (map quoted columns) in
      let valuePlaceholders :=
        join ", " (map (fun _ => "(" ++ join ", " (map (fun _ => "?") columns) ++ ")") rows) in
      inr {| table := table b;
             query := "INSERT INTO " ++ quoted (table b) ++ " (" ++ columnNames
                      ++ ") VALUES " ++ valuePlaceholders;
             params := (params b
                        ++ flat_map (fun row => map (fun col => prop row col) columns) rows)%list |}
  end.

Definition execute (sql : Executor) (b : t) : JsError + list JsValue :=
  sql (query b) (params b).
End InsertQueryBuilder.

(** The [table] field of the UPDATE builder is written by the constructor and
    never read again; the state that matters is the base class's. *)
Module UpdateQueryBuilder.
Import QueryBuilder.
Definition t : Type := QueryBuilder.t.

Definition new (table : string) : t :=
  {| query := "UPDATE " ++ quoted table; params := [] |}.

Definition set (b : t) (data : JsObject) : t :=
  let columns := keys data in
  let setClause := join ", " (map (fun col => quoted col ++ " = ?") columns) in
  {| query := query b ++ " SET " ++ setClause;
     params := (params b ++ map (fun col => prop data col) columns)%list |}.

Definition where_ (b : t) (condition : WhereCondition.t) : t :=
  {| query :=
       if includes (query b) "WHERE"
       then query b ++ " AND " ++ WhereCondition.sql condition
       else query b ++ " WHERE " ++ WhereCondition.sql condition;
     params := (params b ++ WhereCondition.params condition)%list |}.

Definition orWhere (b : t) (condition : WhereCondition.t) : t :=
  {| query :=
       if includes (query b) "WHERE"
       then query b ++ " OR " ++ WhereCondition.sql condition
       else query b ++ " WHERE " ++ WhereCondition.sql condition;
     params := (params b ++ WhereCondition.params condition)%list |}.
End UpdateQueryBuilder.

Module DeleteQueryBuilder.
Import QueryBuilder.
Definition t : Type := QueryBuilder.t.

Definition new : t := {| query := "DELETE"; params := [] |}.

Definition from (b : t) (table : string) : t :=
  {| query := query b ++ " FROM " ++ quoted table; params := params b |}.

Definition where_ (b : t) (condition : WhereCondition.t) : t :=
  {| query :=
       if includes (query b) "WHERE"
       then query b ++ " AND " ++ WhereCondition.sql condition
       else query b ++ " WHERE " ++ WhereCondition.sql condition;
     params := (params b ++ WhereCondition.params condition)%list |}.

Definition orWhere (b : t) (condition : WhereCondition.t) : t :=
  {| query :=
       if includes (query b) "WHERE"
       then query b ++ " OR " ++ WhereCondition.sql condition
       else query b ++ " WHERE " ++ WhereCondition.sql condition;
     params := (params b ++ WhereCondition.params condition)%list |}.
End DeleteQueryBuilder.

(** ** The database: schema introspection and the builder entry points *)

Module ForeignKey.
Record t : Type := mk { tableName : JsValue; columnName : JsValue }.
End ForeignKey.

Module Column.
Record t : Type := mk {
  name : JsValue;
  datatype : string;
  constraint : string;
  isRequired : bool;
  foreignKey : option ForeignKey.t
}.
End Column.

Module Table.
Record t : Type := mk { name : JsValue; columns : list Column.t }.
End Table.

Module Schema.
Record t : Type := mk { tables : list Table.t }.
End Schema.

(** [for (const x of xs) { ... push(f x) }] and [xs.map(f)] with a body that
    may throw: the first failure ends the traversal. *)
Fixpoint mapM {A B : Type} (f : A -> JsError + B) (xs : list A) : JsError + list B :=
  match xs with
  | [] => ret []
  | x :: xs' =>
      y <- f x ;;
      ys <- mapM f xs' ;;
      ret (y :: ys)
  end.

Module DataPantryDatabase.

(** [mapSQLiteType(sqliteType)]; [toUpperCase] exists on strings only. *)
Definition mapSQLiteType (sqliteType : JsValue) : JsError + string :=
  match sqliteType with
  | JStr s =>
      let upper := toUpperCase s in
      if includes upper "INT" then ret "number"
      else if String.eqb upper "REAL" then ret "number"
      else if String.eqb upper "TEXT" then ret "string"
      else ret "string"
  | _ => inl TypeError
  end.

(** [foreignKeys.find(fk => fk.from === columnName)]. *)
Fixpoint find (columnName : JsValue) (foreignKeys : list JsValue)
  : JsError + JsValue :=
  match foreignKeys with
  | [] => ret JUndefined
  | fk :: rest =>
      from <- member fk "from" ;;
      if strict_eq from columnName then ret fk else find columnName rest
  end.

Definition findForeignKey (columnName : JsValue) (foreignKeys : list JsValue)
  : JsError + option ForeignKey.t :=
  fk <- find columnName foreignKeys ;;
  if negb (truthy fk) then ret None
  else
    table <- member fk "table" ;;
    to <- member fk "to" ;;
    ret (Some {| ForeignKey.tableName := table; ForeignKey.columnName := to |}).

(** The body of [columns.map(col => ...)] in [schema]. *)
Definition columnDescription (foreignKeys : list JsValue) (col : JsValue)
  : JsError + Column.t :=
  name <- member col "name" ;;
  type <- member col "type" ;;
  datatype <- mapSQLiteType type ;;
  pk <- member col "pk" ;;
  notnull <- member col "notnull" ;;
  fk <- findForeignKey name foreignKeys ;;
  ret {| Column.name := name;
         Column.datatype := datatype;
         Column.constraint :=
           if truthy pk then "primary"
           else if truthy notnull then "unique" else "none";
         Column.isRequired := strict_eq notnull (JNum 1);
         Column.foreignKey := fk |}.

Definition tablesQuery : string :=
  nl ++ "      SELECT name FROM sqlite_master " ++ nl
     ++ "      WHERE type='table' AND name NOT LIKE 'sqlite_%'" ++ nl
     ++ "    ".

(** The body of the loop of [schema] for one row of the table list. *)
Definition tableSchema (sql : Executor) (row : JsValue) : JsError + Table.t :=
  name <- member row "name" ;;
  columns <- sql ("PRAGMA table_info(" ++ quoted (toString name) ++ ")") [] ;;
  foreignKeys <- sql ("PRAGMA foreign_key_list(" ++ quoted (toString name) ++ ")") [] ;;
  cols <- mapM (columnDescription foreignKeys) columns ;;
  ret {| Table.name := name; Table.columns := cols |}.

Definition schema (sql : Executor) : JsError + Schema.t :=
  tables <- sql tablesQuery [] ;;
  ts <- mapM (tableSchema sql) tables ;;
  ret {| Schema.tables := ts |}.

(** Query builder entry points. *)
Definition select (columns : list string) : SelectQueryBuilder.t :=
  SelectQueryBuilder.new columns.

Definition insert (table : string) : InsertQueryBuilder.t :=
  InsertQueryBuilder.new table.

Definition update (table : string) : UpdateQueryBuilder.t :=
  UpdateQueryBuilder.new table.

Definition delete : DeleteQueryBuilder.t := DeleteQueryBuilder.new.
End DataPantryDatabase.

(** ** The catalog of the test script *)

(** The rows and the answers of the Pixels catalog of the test script: one
    table, four columns, no foreign key. *)
Definition pixelsColumn (cid : Z) (name type : string) (notnull pk : Z) : JsValue :=
  JObj [("cid", JNum cid); ("name", JStr name); ("type", JStr type);
        ("notnull", JNum notnull); ("dflt_value", JNull); ("pk", JNum pk)].

Definition pixelsCatalog : Executor :=
  fun query _ =>
    if String.eqb query DataPantryDatabase.tablesQuery then
      inr [JObj [("name", JStr "Pixels")]]
    else if String.eqb query ("PRAGMA table_info(" ++ quoted "Pixels" ++ ")") then
      inr [pixelsColumn 0 "id" "INTEGER" 1 1;
           pixelsColumn 1 "x" "INTEGER" 0 0;
           pixelsColumn 2 "y" "INTEGER" 0 0;
           pixelsColumn 3 "color" "TEXT" 0 0]
    else if String.eqb query ("PRAGMA foreign_key_list(" ++ quoted "Pixels" ++ ")") then
      inr []
    else inl (Error "Query failed").

(** ** The INSERT statement in closed form *)

(** The rows [values] works on: its argument when that is an array, the
    one-element array of its argument otherwise. *)
Definition rowsOf (data : InsertData) : list JsObject :=
  match data with Rows rs => rs | OneRow r => [r] end.

(** One group [(?, ..., ?)] of a VALUES list, for [n] columns. *)
Definition valueGroup (n : nat) : string := "(" ++ join ", " (repeat "?" n) ++ ")".

(** The INSERT statement for [n] rows of the given columns, in closed form. *)
Definition insertText (table : string) (columns : list string) (n : nat) : string :=
  "INSERT INTO " ++ quoted table ++ " (" ++ join ", " (map quoted columns)
  ++ ") VALUES " ++ join ", " (repeat (valueGroup (List.length columns)) n).

(** The values of the rows for the given columns, row after row. *)
Definition rowMajor (columns : list string) (rows : list JsObject) : list JsValue :=
  flat_map (fun row => map (prop row) columns) rows.

(** ** Chains of clause calls

    A chain [b.m1(a1).m2(a2)...] is the list of its calls, applied to the
    builder from left to right. *)

Inductive WhereCall : Type :=
| Where (condition : WhereCondition.t)
| OrWhere (condition : WhereCondition.t).

Definition conditionOf (w : WhereCall) : WhereCondition.t :=
  match w with Where c | OrWhere c => c end.

(** The three statement kinds that have [where] and [orWhere]. *)
Inductive Kind : Type := Select | Update | Delete.

Definition callWhere (k : Kind) (b : QueryBuilder.t) (w : WhereCall) : QueryBuilder.t :=
  match k, w with
  | Select, Where c => SelectQueryBuilder.where_ b c
  | Select, OrWhere c => SelectQueryBuilder.orWhere b c
  | Update, Where c => UpdateQueryBuilder.where_ b c
  | Update, OrWhere c => UpdateQueryBuilder.orWhere b c
  | Delete, Where c => DeleteQueryBuilder.where_ b c
  | Delete, OrWhere c => DeleteQueryBuilder.orWhere b c
  end.

Definition whereChain (k : Kind) (b : QueryBuilder.t) (ws : list WhereCall) : QueryBuilder.t :=
  fold_left (callWhere k) ws b.

(** The text a call of a chain is expected to add when it is not the first:
    [ AND ] or [ OR ] and the condition. *)
Definition laterWhereText (w : WhereCall) : string :=
  match w with
  | Where c => " AND " ++ WhereCondition.sql c
  | OrWhere c => " OR " ++ WhereCondition.sql c
  end.

(** The texts of a list, one after the other. *)
Fixpoint concatTexts (l : list string) : string :=
  match l with
  | [] => EmptyString
  | x :: l' => x ++ concatTexts l'
  end.

(** The text of a condition does not contain [WHERE]. *)
Definition whereFree (w : WhereCall) : bool :=
  negb (includes (WhereCondition.sql (conditionOf w)) "WHERE").

Inductive SelectCall : Type :=
| SFrom (table : string)
| SJoin (table condition : string)
| SLeftJoin (table condition : string)
| SWhere (condition : WhereCondition.t)
| SOrWhere (condition : WhereCondition.t)
| SOrderBy (column : string) (direction : Direction)
| SLimit (n : JsNumber)
| SOffset (n : JsNumber).

Definition callSelect (b : SelectQueryBuilder.t) (c : SelectCall) : SelectQueryBuilder.t :=
  match c with
  | SFrom t => SelectQueryBuilder.from b t
  | SJoin t on => SelectQueryBuilder.join b t on
  | SLeftJoin t on => SelectQueryBuilder.leftJoin b t on
  | SWhere w => SelectQueryBuilder.where_ b w
  | SOrWhere w => SelectQueryBuilder.orWhere b w
  | SOrderBy col d => SelectQueryBuilder.orderBy b col d
  | SLimit n => SelectQueryBuilder.limit b n
  | SOffset n => SelectQueryBuilder.offset b n
  end.

Inductive UpdateCall : Type :=
| USet (data : JsObject)
| UWhere (condition : WhereCondition.t)
| UOrWhere (condition : WhereCondition.t).

Definition callUpdate (b : UpdateQueryBuilder.t) (c : UpdateCall) : UpdateQueryBuilder.t :=
  match c with
  | USet data => UpdateQueryBuilder.set b data
  | UWhere w => UpdateQueryBuilder.where_ b w
  | UOrWhere w => UpdateQueryBuilder.orWhere b w
  end.

Inductive DeleteCall : Type :=
| DFrom (table : string)
| DWhere (condition : WhereCondition.t)
| DOrWhere (condition : WhereCondition.t).

Definition callDelete (b : DeleteQueryBuilder.t) (c : DeleteCall) : DeleteQueryBuilder.t :=
  match c with
  | DFrom t => DeleteQueryBuilder.from b t
  | DWhere w => DeleteQueryBuilder.where_ b w
  | DOrWhere w => DeleteQueryBuilder.orWhere b w
  end.

(** [values] called once for every element of [datas], in order. *)
Fixpoint callValues (b : InsertQueryBuilder.t) (datas : list InsertData)
  : JsError + InsertQueryBuilder.t :=
  match datas with
  | [] => ret b
  | d :: ds => b' <- InsertQueryBuilder.values b d ;; callValues b' ds
  end.

(** A statement as a caller writes it: an entry point of the database and the
    chain of clause calls on its result. *)
Inductive Chain : Type :=
| SelectChain (columns : list string) (calls : list SelectCall)
| InsertChain (table : string) (datas : list InsertData)
| UpdateChain (table : string) (calls : list UpdateCall)
| DeleteChain (calls : list DeleteCall).

(** The statement text and the bound parameters a chain arrives at. *)
Definition statementOf (ch : Chain) : JsError + (string * list JsValue) :=
  match ch with
  | SelectChain columns calls =>
      let b := fold_left callSelect calls (DataPantryDatabase.select columns) in
      ret (QueryBuilder.query b, QueryBuilder.params b)
  | InsertChain table datas =>
      b <- callValues (DataPantryDatabase.insert table) datas ;;
      ret (InsertQueryBuilder.query b, InsertQueryBuilder.params b)
  | UpdateChain table calls =>
      let b := fold_left callUpdate calls (DataPantryDatabase.update table) in
      ret (QueryBuilder.query b, QueryBuilder.params b)
  | DeleteChain calls =>
      let b := fold_left callDelete calls DataPantryDatabase.delete in
      ret (QueryBuilder.query b, QueryBuilder.params b)
  end.

(** ** Statements with as many placeholders as bound parameters *)

(** The statement is aligned: as many placeholders as bound parameters. *)
Definition aligned (b : QueryBuilder.t) : Prop :=
  placeholders (QueryBuilder.query b) = List.length (QueryBuilder.params b).

(** A call that keeps the order: it adds a fragment at the right end of the
    text and the values [vals] at the right end of the bound parameters, as
    many placeholders as values. *)
Definition appendsAligned (before after : QueryBuilder.t) (vals : list JsValue) : Prop :=
  exists fragment,
    QueryBuilder.query after = QueryBuilder.query before ++ fragment
    /\ QueryBuilder.params after = (QueryBuilder.params before ++ vals)%list
    /\ placeholders fragment = List.length vals.

(** The values a call binds. *)
Definition boundBySelectCall (c : SelectCall) : list JsValue :=
  match c with
  | SWhere w | SOrWhere w => WhereCondition.params w
  | _ => []
  end.

Definition boundByUpdateCall (c : UpdateCall) : list JsValue :=
  match c with
  | USet data => map (prop data) (keys data)
  | UWhere w | UOrWhere w => WhereCondition.params w
  end.

Definition boundByDeleteCall (c : DeleteCall) : list JsValue :=
  match c with
  | DWhere w | DOrWhere w => WhereCondition.params w
  | DFrom _ => []
  end.

(** The text arguments of a call contain no [?], its condition is aligned. *)
Definition plainSelectCall (c : SelectCall) : bool :=
  match c with
  | SFrom t => plain t
  | SJoin t on | SLeftJoin t on => plain t && plain on
  | SWhere w | SOrWhere w => alignedCondition w
  | SOrderBy col _ => plain col
  | SLimit _ | SOffset _ => true
  end.

Definition plainUpdateCall (c : UpdateCall) : bool :=
  match c with
  | USet data => forallb plain (keys data)
  | UWhere w | UOrWhere w => alignedCondition w
  end.

Definition plainDeleteCall (c : DeleteCall) : bool :=
  match c with
  | DFrom t => plain t
  | DWhere w | DOrWhere w => alignedCondition w
  end.

Definition plainInsertData (d : InsertData) : bool :=
  match d with
  | OneRow r => forallb plain (keys r)
  | Rows rs => forallb (fun r => forallb plain (keys r)) rs
  end.

(** The arguments of a whole chain are free of [?]; an INSERT chain calls
    [values] at most once. *)
Definition plainChain (ch : Chain) : bool :=
  match ch with
  | SelectChain columns calls => forallb plain columns && forallb plainSelectCall calls
  | InsertChain table datas =>
      plain table && forallb plainInsertData datas && (List.length datas <=? 1)%nat
  | UpdateChain table calls => plain table && forallb plainUpdateCall calls
  | DeleteChain calls => forallb plainDeleteCall calls
  end.

(** ** Catalog rows as the schema normaliser reads them *)

(** [v.k] for a value that is neither [undefined] nor [null]. *)
Definition field (v : JsValue) (k : string) : JsValue :=
  match v with
  | JObj o => prop o k
  | _ => JUndefined
  end.

(** A catalog column the normaliser can describe: an object whose [type] is
    a string. *)
Definition describable (col : JsValue) : bool :=
  match col with
  | JObj o => match prop o "type" with JStr _ => true | _ => false end
  | _ => false
  end.

(** The two statements [schema] sends for a table. *)
Definition tableInfoQuery (name : JsValue) : string :=
  "PRAGMA table_info(" ++ quoted (toString name) ++ ")".

Definition foreignKeyListQuery (name : JsValue) : string :=
  "PRAGMA foreign_key_list(" ++ quoted (toString name) ++ ")".

(** The foreign key description made of a catalog row. *)
Definition foreignKeyOf (fk : JsValue) : ForeignKey.t :=
  {| ForeignKey.tableName := field fk "table"; ForeignKey.columnName := field fk "to" |}.

(** ** The calls a method makes

    The same methods once more, now with the calls of the database's [sql]
    method they make written down: a computation is its outcome together with
    the statements it sent, in order.  A failure ends the computation, and
    what was sent before it stays sent. *)

(** One call [sql(query, ...params)]. *)
Definition Sent : Type := (string * list JsValue)%type.

Record Traced (A : Type) : Type := traced {
  outcome : JsError + A;
  sent : list Sent
}.

Arguments traced {A} _ _.
Arguments outcome {A} _.
Arguments sent {A} _.

#[export] Instance Monad_Traced : Monad Traced := {
  ret := fun _ a => traced (inr a) [];
  bind := fun _ _ m f =>
    match outcome m with
    | inl e => traced (inl e) (sent m)
    | inr a => traced (outcome (f a)) (sent m ++ sent (f a))%list
    end
}.

(** A step that does not call the database. *)
Definition local {A : Type} (r : JsError + A) : Traced A := traced r [].

(** [await this.db.sql(query, ...params)]. *)
Definition callSql (sql : Executor) (query : string) (params : list JsValue)
  : Traced (list JsValue) :=
  traced (sql query params) [(query, params)].

(** A loop over [xs] whose body may call the database. *)
Fixpoint forEach {A B : Type} (f : A -> Traced B) (xs : list A) : Traced (list B) :=
  match xs with
  | [] => ret []
  | x :: xs' =>
      y <- f x ;;
      ys <- forEach f xs' ;;
      ret (y :: ys)
  end.

Module Thenable.
Import QueryBuilder.

(** [execute()]. *)
Definition execute (sql : Executor) (b : QueryBuilder.t) : Traced (list JsValue) :=
  callSql sql (query b) (params b).

(** [then(resolve, reject)]: [this.execute().then(resolve, reject)].  The
    callbacks answer with a value or throw; a callback that is left out is
    [inr], respectively [inl]. *)
Definition then_ {A : Type} (sql : Executor) (b : QueryBuilder.t)
    (resolve : list JsValue -> JsError + A) (reject : JsError -> JsError + A)
  : Traced A :=
  let p := execute sql b in
  traced (match outcome p with inr rows => resolve rows | inl e => reject e end)
         (sent p).

(** [catch(reject)]: [this.execute().catch(reject)]. *)
Definition catch (sql : Executor) (b : QueryBuilder.t)
    (reject : JsError -> JsError + list JsValue) : Traced (list JsValue) :=
  let p := execute sql b in
  traced (match outcome p with inr rows => inr rows | inl e => reject e end)
         (sent p).

(** [finally(callback)]: [this.execute().finally(callback)]; the callback
    gets no argument, and what it returns is dropped unless it throws. *)
Definition finally (sql : Executor) (b : QueryBuilder.t)
    (callback : unit -> JsError + unit) : Traced (list JsValue) :=
  let p := execute sql b in
  traced (match callback tt with inl e => inl e | inr _ => outcome p end)
         (sent p).

(** [await b]. *)
Definition await (sql : Executor) (b : QueryBuilder.t) : Traced (list JsValue) :=
  then_ sql b inr inl.

(** [first()] and [count()] of the SELECT builder. *)
Definition first (sql : Executor) (b : SelectQueryBuilder.t) : Traced JsValue :=
  results <- execute sql b ;;
  ret (js_or (index0 results) JNull).

Definition count (sql : Executor) (b : SelectQueryBuilder.t) : Traced JsValue :=
  let countQuery := replaceSelectFrom (query b) countClause in
  result <- callSql sql countQuery (params b) ;;
  local (member (index0 result) "count").

(** The loop body of [schema], and [schema]. *)
Definition tableSchema (sql : Executor) (row : JsValue) : Traced Table.t :=
  name <- local (member row "name") ;;
  columns <- callSql sql ("PRAGMA table_info(" ++ quoted (toString name) ++ ")") [] ;;
  foreignKeys <- callSql sql ("PRAGMA foreign_key_list(" ++ quoted (toString name) ++ ")") [] ;;
  cols <- local (mapM (DataPantryDatabase.columnDescription foreignKeys) columns) ;;
  ret {| Table.name := name; Table.columns := cols |}.

Definition schema (sql : Executor) : Traced Schema.t :=
  tables <- callSql sql DataPantryDatabase.tablesQuery [] ;;
  ts <- forEach (tableSchema sql) tables ;;
  ret {| Schema.tables := ts |}.
End Thenable.

(** The statements [schema] sends for the tables of the given names. *)
Definition catalogQueries (names : list JsValue) : list Sent :=
  (DataPantryDatabase.tablesQuery, [])
  :: flat_map (fun name => [(tableInfoQuery name, []); (foreignKeyListQuery name, [])])
              names.

(** ** The transport of [sql]

    What [sql] does around [fetch]: the request it makes of the statement and
    the answer it takes from the response.  [fetch] itself is a function from
    requests to responses that may fail. *)

Module Http.
(** The request [sql] posts; [query] and [parameters] are the two fields of
    the body before [JSON.stringify]. *)
Record Request : Type := mkRequest {
  url : string;
  method : string;
  headers : list (string * string);
  query : string;
  parameters : list JsValue
}.

(** What a property of a body holds: a scalar or an object of scalars, or an
    array of such values. *)
Inductive Json : Type :=
| JsonValue (v : JsValue)
| JsonArray (elements : list JsValue).

(** A parsed body: [null], an object with its properties, or a value that
    has neither of the properties [sql] reads (a text, a number, a boolean,
    an array). *)
Inductive Body : Type :=
| NullBody
| ObjectBody (fields : list (string * Json))
| OtherBody.

(** The response as far as [sql] reads it: [response.ok] and the outcome of
    [response.json()]. *)
Record Response : Type := mkResponse {
  ok : bool;
  json : JsError + Body
}.

(** [fields[k]] for a data key [k]. *)
Fixpoint fieldOf (fields : list (string * Json)) (k : string) : Json :=
  match fields with
  | [] => JsonValue JUndefined
  | (k', v) :: fields' => if String.eqb k' k then v else fieldOf fields' k
  end.

(** [body.k] for [statusMessage] and [result]. *)
Definition bodyMember (body : Body) (k : string) : JsError + Json :=
  match body with
  | NullBody => inl TypeError
  | ObjectBody fields => inr (fieldOf fields k)
  | OtherBody => inr (JsonValue JUndefined)
  end.

(** ToBoolean and ToString of what a property holds; an array prints its
    elements between commas, [null] and [undefined] as nothing. *)
Definition jsonTruthy (v : Json) : bool :=
  match v with
  | JsonValue x => truthy x
  | JsonArray _ => true
  end.

Definition elementText (v : JsValue) : string :=
  match v with
  | JUndefined | JNull => EmptyString
  | _ => toString v
  end.

Definition jsonText (v : Json) : string :=
  match v with
  | JsonValue x => toString x
  | JsonArray elements => join "," (map elementText elements)
  end.

Definition Fetch : Type := Request -> JsError + Response.
End Http.

Module DataPantry.
(** The fields of the database class. *)
Record Database : Type := mkDatabase { apiKey : string; baseUrl : string }.

(** The constructor, with its default for [baseUrl]. *)
Definition new (apiKey : string) (baseUrl : option string) : Database :=
  {| apiKey := apiKey;
     baseUrl := match baseUrl with Some u => u | None => "https://datapantry.org" end |}.

(** [DataPantry.database(apiKey, baseUrl)]. *)
Definition database (apiKey : string) (baseUrl : option string) : Database :=
  new apiKey baseUrl.

(** [sql(query, ...params)]: [data.result] of an ok response, as it is;
    [Error(error.statusMessage || 'Query failed')] for any other. *)
Definition sql (fetch : Http.Fetch) (db : Database)
    (query : string) (params : list JsValue) : JsError + Http.Json :=
  response <- fetch {| Http.url := baseUrl db ++ "/api/v1/query";
                       Http.method := "POST";
                       Http.headers := [("Content-Type", "application/json");
                                        ("APIkey", apiKey db)];
                       Http.query := query;
                       Http.parameters := params |} ;;
  if negb (Http.ok response) then
    error <- Http.json response ;;
    statusMessage <- Http.bodyMember error "statusMessage" ;;
    inl (Error (Http.jsonText
                  (if Http.jsonTruthy statusMessage then statusMessage
                   else Http.JsonValue (JStr "Query failed"))))
  else
    data <- Http.json response ;;
    Http.bodyMember data "result".
End DataPantry.

(** The request [sql] posts for a statement. *)
Definition requestOf (db : DataPantry.Database) (query : string) (params : list JsValue)
  : Http.Request :=
  {| Http.url := DataPantry.baseUrl db ++ "/api/v1/query";
     Http.method := "POST";
     Http.headers := [("Content-Type", "application/json");
                      ("APIkey", DataPantry.apiKey db)];
     Http.query := query;
     Http.parameters := params |}.

(** * Properties *)

(** ** Texts *)

Lemma append_assoc (a b c : string) : (a ++ b) ++ c = a ++ b ++ c.
Proof. induction a as [|x a IH]; simpl; [reflexivity | now rewrite IH]. Qed.

Lemma append_empty_r (a : string) : a ++ "" = a.
Proof. induction a as [|x a IH]; simpl; [reflexivity | now rewrite IH]. Qed.

Lemma placeholders_app (a b : string) :
  placeholders (a ++ b) = placeholders a + placeholders b.
Proof.
  induction a as [|x a IH]; simpl; [reflexivity |].
  rewrite IH. lia.
Qed.

Lemma placeholders_uint (d : Decimal.uint) :
  placeholders (NilEmpty.string_of_uint d) = 0.
Proof. induction d; simpl; assumption || reflexivity. Qed.

Lemma placeholders_numberToString (n : Z) : placeholders (numberToString n) = 0.
Proof.
  unfold numberToString.
  assert (U : forall d, placeholders (NilZero.string_of_uint d) = 0).
  { intros d. destruct d; try reflexivity; apply (placeholders_uint (_ d)). }
  destruct (Z.to_int n); simpl; apply U.
Qed.

Lemma placeholders_zeros (count : nat) : placeholders (zeros count) = 0.
Proof. induction count as [|count IH]; [reflexivity | exact IH]. Qed.

Lemma placeholders_split (n : nat) (s : string) :
  placeholders (firstChars n s) + placeholders (skip n s) = placeholders s.
Proof.
  revert s. induction n as [|n IH]; intros s; [reflexivity |].
  destruct s as [|c s]; [reflexivity |].
  cbn [firstChars skip placeholders]. rewrite <- (IH s). lia.
Qed.

Lemma placeholders_exponentText (e : Z) : placeholders (exponentText e) = 0.
Proof.
  unfold exponentText. rewrite placeholders_app, placeholders_numberToString.
  now destruct (e <? 0)%Z.
Qed.

Lemma placeholders_positiveText (s : positive) (n : Z) :
  placeholders (positiveText s n) = 0.
Proof.
  unfold positiveText.
  assert (Hd : placeholders (digitsOf s) = 0) by apply placeholders_uint.
  assert (Hsplit := fun m => placeholders_split m (digitsOf s)).
  repeat match goal with |- context [if ?c then _ else _] => destruct c end;
    rewrite ?placeholders_app, ?placeholders_zeros, ?placeholders_exponentText, ?Hd;
    try reflexivity.
  - specialize (Hsplit (Z.to_nat n)). rewrite Hd in Hsplit.
    change (placeholders ".") with 0. lia.
  - specialize (Hsplit 1%nat). rewrite Hd in Hsplit.
    change (placeholders ".") with 0. change (placeholders "e") with 0. lia.
Qed.

(** No number is printed with a [?]. *)
Lemma placeholders_numberText (x : JsNumber) : placeholders (numberText x) = 0.
Proof.
  destruct x as [| [] | | [] s n]; try reflexivity; cbn [numberText];
    rewrite placeholders_app, placeholders_positiveText; reflexivity.
Qed.

Lemma plain_true (s : string) : plain s = true <-> placeholders s = 0.
Proof. unfold plain. apply Nat.eqb_eq. Qed.

Lemma placeholders_quoted (s : string) : placeholders (quoted s) = placeholders s.
Proof. unfold quoted. rewrite !placeholders_app. simpl. lia. Qed.

(** ** Placeholders of joined texts *)

Lemma join_cons (sep x y : string) (l : list string) :
  join sep (x :: y :: l) = x ++ sep ++ join sep (y :: l).
Proof. reflexivity. Qed.

Lemma placeholders_join (sep : string) (l : list string) :
  placeholders sep = 0 ->
  placeholders (join sep l) = list_sum (map placeholders l).
Proof.
  intros Hsep. induction l as [|x l IH]; [reflexivity |].
  destruct l as [|y l].
  - simpl. lia.
  - rewrite join_cons, !placeholders_app, IH, Hsep.
    change (map placeholders (x :: y :: l))
      with (placeholders x :: map placeholders (y :: l)).
    simpl list_sum. lia.
Qed.

Lemma list_sum_repeat (c n : nat) : list_sum (repeat c n) = n * c.
Proof. induction n as [|n IH]; simpl; [reflexivity | rewrite IH; lia]. Qed.

Lemma list_sum_zero (l : list nat) :
  (forall x, In x l -> x = 0) -> list_sum l = 0.
Proof.
  induction l as [|x l IH]; intros H; [reflexivity |].
  simpl. rewrite (H x (or_introl Logic.eq_refl)), IH; [reflexivity |].
  intros y Hy. apply H. now right.
Qed.

Lemma placeholders_join_repeat (sep g : string) (n : nat) :
  placeholders sep = 0 ->
  placeholders (join sep (repeat g n)) = n * placeholders g.
Proof.
  intros Hsep. rewrite placeholders_join by assumption.
  rewrite map_repeat. apply list_sum_repeat.
Qed.

Lemma placeholders_join_quoted (l : list string) :
  forallb plain l = true ->
  placeholders (join ", " (map quoted l)) = 0.
Proof.
  intros H. rewrite placeholders_join by reflexivity.
  apply list_sum_zero. intros x Hx.
  apply in_map_iff in Hx. destruct Hx as [q [<- Hq]].
  apply in_map_iff in Hq. destruct Hq as [s [<- Hs]].
  rewrite placeholders_quoted. apply plain_true.
  now apply (proj1 (forallb_forall plain l) H).
Qed.

Lemma placeholders_valueGroup (n : nat) : placeholders (valueGroup n) = n.
Proof.
  unfold valueGroup. rewrite !placeholders_app.
  rewrite placeholders_join_repeat by reflexivity. simpl. lia.
Qed.

Lemma placeholders_set_clause (columns : list string) :
  forallb plain columns = true ->
  placeholders (join ", " (map (fun col => quoted col ++ " = ?") columns))
  = List.length columns.
Proof.
  intros H. rewrite placeholders_join by reflexivity.
  induction columns as [|col columns IH]; [reflexivity |].
  cbn [forallb] in H. apply andb_prop in H. destruct H as [Hcol H].
  apply plain_true in Hcol.
  cbn [map List.length].
  match goal with |- list_sum (?a :: ?l) = _ =>
    change (list_sum (a :: l)) with (a + list_sum l) end.
  rewrite (IH H), placeholders_app, placeholders_quoted, Hcol. reflexivity.
Qed.

(** ** Substrings across a space *)

Lemma prefix_app_char (c : ascii) (p a b : string) :
  lacks c p = true ->
  prefix p (a ++ String c b) = prefix p a.
Proof.
  revert p. induction a as [|x a IH]; intros p Hp.
  - destruct p as [|y p]; [reflexivity |].
    simpl in Hp. apply andb_prop in Hp. destruct Hp as [Hy _].
    simpl. destruct (ascii_dec y c) as [->|]; [| reflexivity].
    now rewrite Ascii.eqb_refl in Hy.
  - destruct p as [|y p]; [reflexivity |].
    simpl in Hp. apply andb_prop in Hp. destruct Hp as [_ Hp].
    simpl. destruct (ascii_dec y x); [now apply IH | reflexivity].
Qed.

Lemma prefix_char (c : ascii) (p b : string) :
  lacks c p = true -> p <> "" -> prefix p (String c b) = false.
Proof.
  intros Hp Hne. destruct p as [|y p]; [contradiction |].
  simpl in Hp. apply andb_prop in Hp. destruct Hp as [Hy _].
  simpl. destruct (ascii_dec y c) as [->|]; [| reflexivity].
  now rewrite Ascii.eqb_refl in Hy.
Qed.

(** An occurrence of [p] cannot lie across a character that [p] lacks. *)
Lemma occurrences_app_char (c : ascii) (p a b : string) :
  lacks c p = true -> p <> "" ->
  occurrences p (a ++ String c b) = occurrences p a + occurrences p b.
Proof.
  intros Hp Hne. induction a as [|x a IH].
  - cbn [append occurrences]. rewrite (prefix_char c) by assumption.
    destruct p; [contradiction | reflexivity].
  - change (String x a ++ String c b) with (String x (a ++ String c b)).
    cbn [occurrences]. rewrite IH.
    change (String x (a ++ String c b)) with (String x a ++ String c b).
    rewrite prefix_app_char by assumption. lia.
Qed.

Lemma occurrences_app_space (p a b : string) :
  spaceless p = true -> p <> "" ->
  occurrences p (a ++ String " " b) = occurrences p a + occurrences p b.
Proof. apply occurrences_app_char. Qed.

Lemma occurrences_app_blank (p a b : string) :
  spaceless p = true -> p <> "" -> startsBlank b = true ->
  occurrences p (a ++ b) = occurrences p a + occurrences p b.
Proof.
  intros Hp Hne Hb. destruct b as [|c b].
  - rewrite append_empty_r. destruct p; [contradiction | simpl; lia].
  - simpl in Hb. apply Ascii.eqb_eq in Hb. subst c.
    rewrite occurrences_app_space by assumption.
    cbn [occurrences]. rewrite (prefix_char " ") by assumption. reflexivity.
Qed.

Lemma includes_occurrences (s p : string) :
  includes s p = false <-> occurrences p s = 0.
Proof.
  induction s as [|c s IH]; cbn [includes occurrences].
  - destruct (prefix p ""); simpl; split; intros; (discriminate || lia || reflexivity).
  - destruct (prefix p (String c s)); simpl.
    + split; intros; (discriminate || lia).
    + exact IH.
Qed.

Lemma includes_app_l (a b p : string) :
  includes a p = true -> includes (a ++ b) p = true.
Proof.
  assert (Hpre : forall p a, prefix p a = true -> prefix p (a ++ b) = true).
  { clear. intros p. induction p as [|c p IH]; intros a H.
    - destruct (a ++ b); reflexivity.
    - destruct a as [|x a]; [discriminate |].
      simpl in *. destruct (ascii_dec c x); [now apply IH | discriminate]. }
  induction a as [|x a IH]; cbn [includes append]; intros H.
  - destruct p; [| discriminate]. destruct b; reflexivity.
  - apply orb_prop in H. destruct H as [H | H].
    + change (String x (a ++ b)) with (String x a ++ b).
      now rewrite (Hpre _ _ H).
    + rewrite (IH H). apply orb_true_r.
Qed.

Lemma includes_app_r (a b p : string) :
  includes b p = true -> includes (a ++ b) p = true.
Proof.
  intros H. induction a as [|x a IH]; [exact H |].
  cbn [append includes]. rewrite IH. apply orb_true_r.
Qed.

(** ** The condition helpers *)

(** Every condition helper, called on a column name without [?], answers a
    fragment with as many placeholders as bound values, which are its
    operands in the order given. *)
Lemma condition_helpers_aligned (column : string) (value : JsValue)
    (pattern : string) (values : list JsValue) :
  plain column = true ->
  alignedCondition (Conditions.eq column value) = true
  /\ alignedCondition (Conditions.ne column value) = true
  /\ alignedCondition (Conditions.gt column value) = true
  /\ alignedCondition (Conditions.gte column value) = true
  /\ alignedCondition (Conditions.lt column value) = true
  /\ alignedCondition (Conditions.lte column value) = true
  /\ alignedCondition (Conditions.like column pattern) = true
  /\ alignedCondition (Conditions.inArray column values) = true
  /\ WhereCondition.params (Conditions.inArray column values) = values.
Proof.
  intros Hc. apply plain_true in Hc. unfold alignedCondition.
  repeat split; cbn [Conditions.eq Conditions.ne Conditions.gt Conditions.gte
    Conditions.lt Conditions.lte Conditions.like Conditions.inArray
    WhereCondition.sql WhereCondition.params];
    rewrite ?placeholders_app, ?placeholders_quoted, ?Hc; try reflexivity.
  rewrite map_const, placeholders_join_repeat by reflexivity.
  apply Nat.eqb_eq. simpl. lia.
Qed.

Lemma occurrences_quoted (p column tail : string) :
  lacks "034" p = true -> p <> "" ->
  occurrences p (quoted column ++ tail) = occurrences p column + occurrences p tail.
Proof.
  intros Hp Hne. unfold quoted. rewrite !append_assoc.
  change (dq ++ column ++ dq ++ tail) with (String "034" (column ++ String "034" tail)).
  cbn [occurrences]. rewrite (prefix_char "034") by assumption.
  now rewrite occurrences_app_char.
Qed.

Lemma no_WHERE_in_placeholder_list (n : nat) :
  occurrences "WHERE" (join ", " (repeat "?" n) ++ ")") = 0.
Proof.
  induction n as [|n IH]; [reflexivity |].
  destruct n as [|n]; [reflexivity |].
  change (repeat "?" (S (S n))) with ("?" :: "?" :: repeat "?" n).
  rewrite join_cons, !append_assoc.
  change ("?" ++ ", " ++ join ", " ("?" :: repeat "?" n) ++ ")")
    with ("?," ++ String " " (join ", " (repeat "?" (S n)) ++ ")")).
  rewrite occurrences_app_space by (reflexivity || discriminate).
  now rewrite IH.
Qed.

(** A condition helper called on a column name that does not contain [WHERE]
    answers a fragment that does not contain it either. *)
Lemma condition_helpers_whereFree (column : string) (value : JsValue)
    (pattern : string) (values : list JsValue) :
  includes column "WHERE" = false ->
  includes (WhereCondition.sql (Conditions.eq column value)) "WHERE" = false
  /\ includes (WhereCondition.sql (Conditions.ne column value)) "WHERE" = false
  /\ includes (WhereCondition.sql (Conditions.gt column value)) "WHERE" = false
  /\ includes (WhereCondition.sql (Conditions.gte column value)) "WHERE" = false
  /\ includes (WhereCondition.sql (Conditions.lt column value)) "WHERE" = false
  /\ includes (WhereCondition.sql (Conditions.lte column value)) "WHERE" = false
  /\ includes (WhereCondition.sql (Conditions.like column pattern)) "WHERE" = false
  /\ includes (WhereCondition.sql (Conditions.inArray column values)) "WHERE" = false.
Proof.
  intros Hc. apply includes_occurrences in Hc.
  repeat split; apply includes_occurrences;
    cbn [Conditions.eq Conditions.ne Conditions.gt Conditions.gte
         Conditions.lt Conditions.lte Conditions.like Conditions.inArray
         WhereCondition.sql];
    rewrite occurrences_quoted, Hc by (reflexivity || discriminate);
    try reflexivity.
  rewrite map_const.
  change (" IN (" ++ join ", " (repeat "?" (List.length values)) ++ ")")
    with ("" ++ String " " ("IN" ++ String " "
            (String "(" (join ", " (repeat "?" (List.length values)) ++ ")")))).
  rewrite !occurrences_app_space by (reflexivity || discriminate).
  cbn [occurrences]. now rewrite no_WHERE_in_placeholder_list.
Qed.

(** C6, as the code has it: [inArray(col, [])] has no special case for the
    empty sequence; its fragment is ["col" IN ()] and it binds no value. *)
Theorem inArray_empty (column : string) :
  Conditions.inArray column []
  = WhereCondition.mk (dq ++ column ++ dq ++ " IN ()") [].
Proof.
  unfold Conditions.inArray, quoted. simpl. f_equal.
  now rewrite !append_assoc.
Qed.

(** C6, refuted as stated: for the column [col] the fragment is ["col" IN ()],
    and the text [1=0] occurs nowhere in it. *)
Lemma inArray_empty_emits_IN :
  WhereCondition.sql (Conditions.inArray "col" []) = dq ++ "col" ++ dq ++ " IN ()"
  /\ includes (WhereCondition.sql (Conditions.inArray "col" [])) "1=0" = false.
Proof. split; reflexivity. Qed.

(** ** Select: the statement text *)

(** C4: [select('x','y').from('T').where(eq('x',3)).where(eq('y',4))] builds
    the text [SELECT x, y FROM "T" WHERE "x" = ? AND "y" = ?] and the bound
    parameters [3, 4], in that order. *)
Theorem select_where_round_trip :
  let b :=
    SelectQueryBuilder.where_
      (SelectQueryBuilder.where_
         (SelectQueryBuilder.from (DataPantryDatabase.select ["x"; "y"]) "T")
         (Conditions.eq "x" (JNum 3)))
      (Conditions.eq "y" (JNum 4)) in
  QueryBuilder.query b
    = "SELECT x, y FROM " ++ dq ++ "T" ++ dq ++ " WHERE " ++ dq ++ "x" ++ dq
      ++ " = ? AND " ++ dq ++ "y" ++ dq ++ " = ?"
  /\ QueryBuilder.params b = [JNum 3; JNum 4].
Proof. split; reflexivity. Qed.

(** C10: [limit(n)] and [offset(n)] append [ LIMIT n] and [ OFFSET n] with the
    number written out in the text, add no placeholder and leave the bound
    parameters as they are. *)
Theorem limit_offset_interpolate (b : SelectQueryBuilder.t) (n : JsNumber) :
  QueryBuilder.query (SelectQueryBuilder.limit b n)
    = QueryBuilder.query b ++ " LIMIT " ++ numberText n
  /\ QueryBuilder.query (SelectQueryBuilder.offset b n)
    = QueryBuilder.query b ++ " OFFSET " ++ numberText n
  /\ placeholders (QueryBuilder.query (SelectQueryBuilder.limit b n))
    = placeholders (QueryBuilder.query b)
  /\ placeholders (QueryBuilder.query (SelectQueryBuilder.offset b n))
    = placeholders (QueryBuilder.query b)
  /\ QueryBuilder.params (SelectQueryBuilder.limit b n) = QueryBuilder.params b
  /\ QueryBuilder.params (SelectQueryBuilder.offset b n) = QueryBuilder.params b.
Proof.
  unfold SelectQueryBuilder.limit, SelectQueryBuilder.offset.
  cbn [QueryBuilder.query QueryBuilder.params].
  repeat split;
    rewrite !placeholders_app, placeholders_numberText; simpl; lia.
Qed.

Example limit_ten :
  QueryBuilder.query
    (SelectQueryBuilder.offset
       (SelectQueryBuilder.limit
          (SelectQueryBuilder.from (DataPantryDatabase.select []) "T")
          (Finite false 1 2))
       (Finite false 2 2))
  = "SELECT * FROM " ++ dq ++ "T" ++ dq ++ " LIMIT 10 OFFSET 20".
Proof. reflexivity. Qed.

(** The numbers are written as a template literal writes them: 10^21 in
    exponent notation, one and a half with its point, a negative zero as
    zero, and what is not a number as [NaN]. *)
Example limit_of_other_numbers :
  QueryBuilder.query (SelectQueryBuilder.limit (DataPantryDatabase.select []) (Finite false 1 22))
    = "SELECT * LIMIT 1e+21"
  /\ QueryBuilder.query (SelectQueryBuilder.limit (DataPantryDatabase.select []) (Finite false 15 1))
    = "SELECT * LIMIT 1.5"
  /\ QueryBuilder.query (SelectQueryBuilder.limit (DataPantryDatabase.select []) (Finite true 5 1))
    = "SELECT * LIMIT -5"
  /\ QueryBuilder.query (SelectQueryBuilder.limit (DataPantryDatabase.select []) Zero)
    = "SELECT * LIMIT 0"
  /\ QueryBuilder.query (SelectQueryBuilder.offset (DataPantryDatabase.select []) NaN)
    = "SELECT * OFFSET NaN"
  /\ QueryBuilder.query
       (SelectQueryBuilder.offset (DataPantryDatabase.select [])
          (Finite false 9007199254740992 16))
    = "SELECT * OFFSET 9007199254740992".
Proof. repeat split. Qed.

(** ** Select: [first] *)

(** C7: [first()] executes the statement; it returns the first row when there
    is one and [null] when the result is empty, and a failure of the
    executor is passed on. *)
Theorem first_row_or_null (sql : Executor) (b : SelectQueryBuilder.t) :
  (forall row rest,
      QueryBuilder.execute sql b = inr (JObj row :: rest) ->
      SelectQueryBuilder.first sql b = inr (JObj row))
  /\ (QueryBuilder.execute sql b = inr [] ->
      SelectQueryBuilder.first sql b = inr JNull)
  /\ (forall e,
      QueryBuilder.execute sql b = inl e ->
      SelectQueryBuilder.first sql b = inl e).
Proof.
  unfold SelectQueryBuilder.first.
  repeat split; intros; rewrite H; reflexivity.
Qed.

Lemma first_row_or_null_witness :
  let b :=
    SelectQueryBuilder.where_
      (SelectQueryBuilder.from (DataPantryDatabase.select []) "T")
      (Conditions.eq "missing_col" (JNum 1)) in
  SelectQueryBuilder.first
    (fun _ _ => inr [JObj [("id", JNum 7)]; JObj [("id", JNum 8)]]) b
    = inr (JObj [("id", JNum 7)])
  /\ SelectQueryBuilder.first (fun _ _ => inr []) b = inr JNull
  /\ SelectQueryBuilder.first (fun _ _ => inl (Error "Query failed")) b
     = inl (Error "Query failed").
Proof.
  intros b. split; [| split].
  - apply (proj1 (first_row_or_null _ b)) with (rest := [JObj [("id", JNum 8)]]).
    reflexivity.
  - apply (proj1 (proj2 (first_row_or_null _ b))). reflexivity.
  - apply (proj2 (proj2 (first_row_or_null _ b))). reflexivity.
Defined.

(** ** Select: [count] *)

Lemma matchDotStarFROM_none (s : string) :
  includes s " FROM" = false -> matchDotStarFROM s = None.
Proof.
  induction s as [|c s IH]; intros H.
  - reflexivity.
  - cbn [includes] in H. apply orb_false_elim in H. destruct H as [Hpre Hs].
    cbn [matchDotStarFROM]. rewrite Hpre, (IH Hs).
    destruct (lineTerminator c); reflexivity.
Qed.

Lemma matchDotStarFROM_last (cols rest : string) :
  singleLine cols = true ->
  includes rest " FROM" = false ->
  matchDotStarFROM (cols ++ " FROM" ++ rest) = Some rest.
Proof.
  intros Hline Hrest. induction cols as [|c cols IH].
  - assert (Hnone : matchDotStarFROM ("FROM" ++ rest) = None).
    { apply matchDotStarFROM_none. simpl. exact Hrest. }
    change ("" ++ " FROM" ++ rest) with (String " " ("FROM" ++ rest)).
    cbn [matchDotStarFROM]. rewrite Hnone. simpl. now destruct rest.
  - cbn [singleLine] in Hline. apply andb_prop in Hline. destruct Hline as [Hc Hline].
    apply negb_true_iff in Hc.
    change (String c cols ++ " FROM" ++ rest) with (String c (cols ++ " FROM" ++ rest)).
    cbn [matchDotStarFROM]. now rewrite Hc, (IH Hline).
Qed.

Lemma matchSelectFrom_SELECT (s : string) :
  matchSelectFrom ("SELECT " ++ s) = matchDotStarFROM s.
Proof. unfold matchSelectFrom. simpl. now destruct s. Qed.

Lemma replaceSelectFrom_clause (cols rest r : string) :
  singleLine cols = true ->
  includes rest " FROM" = false ->
  replaceSelectFrom ("SELECT " ++ cols ++ " FROM" ++ rest) r = r ++ rest.
Proof.
  intros Hline Hrest.
  assert (Hm : matchSelectFrom ("SELECT " ++ cols ++ " FROM" ++ rest) = Some rest)
    by (rewrite matchSelectFrom_SELECT; now apply matchDotStarFROM_last).
  change ("SELECT " ++ cols ++ " FROM" ++ rest)
    with (String "S" ("ELECT " ++ cols ++ " FROM" ++ rest)) in *.
  cbn [replaceSelectFrom]. now rewrite Hm.
Qed.

Lemma replaceSelectFrom_no_match (s r : string) :
  testSelectFrom s = false -> replaceSelectFrom s r = s.
Proof.
  induction s as [|c s IH]; cbn [testSelectFrom replaceSelectFrom].
  - destruct (matchSelectFrom ""); [discriminate | reflexivity].
  - destruct (matchSelectFrom (String c s)); [discriminate |].
    intros H. now rewrite IH.
Qed.

(** C3, as the code has it: [count()] replaces the SELECT clause ([SELECT],
    the column list on one line, [FROM]) by the text [countClause],
    keeps the clauses after it and the bound parameters, and returns the
    [count] field of the first row of the answer; a statement text that the
    pattern does not match is executed as it is, and no error is raised for
    it before the database is asked. *)
Theorem count_replaces_select_clause (sql : Executor) (b : SelectQueryBuilder.t) :
  (forall cols rest,
      QueryBuilder.query b = "SELECT " ++ cols ++ " FROM" ++ rest ->
      singleLine cols = true ->
      includes rest " FROM" = false ->
      SelectQueryBuilder.count sql b
      = (result <- sql (countClause ++ rest) (QueryBuilder.params b) ;;
         countField result))
  /\ (testSelectFrom (QueryBuilder.query b) = false ->
      SelectQueryBuilder.count sql b
      = (result <- sql (QueryBuilder.query b) (QueryBuilder.params b) ;;
         countField result))
  /\ (forall row more, countField (JObj row :: more) = inr (prop row "count"))
  /\ countField [] = inl TypeError.
Proof.
  unfold SelectQueryBuilder.count. repeat split.
  - intros cols rest Hq Hline Hrest.
    now rewrite Hq, replaceSelectFrom_clause.
  - intros Hno. now rewrite replaceSelectFrom_no_match.
Qed.

Lemma count_replaces_select_clause_witness :
  let b :=
    SelectQueryBuilder.where_
      (SelectQueryBuilder.from (DataPantryDatabase.select ["x"; "y"]) "T")
      (Conditions.eq "x" (JNum 3)) in
  SelectQueryBuilder.count
    (answering (countClause ++ " " ++ dq ++ "T" ++ dq ++ " WHERE "
                ++ dq ++ "x" ++ dq ++ " = ?")
               [JObj [("count", JNum 2)]]) b
  = inr (JNum 2)
  /\ SelectQueryBuilder.count
       (answering "SELECT x" [JObj [("x", JNum 1)]]) (DataPantryDatabase.select ["x"])
     = inr JUndefined.
Proof.
  intros b. split.
  - rewrite (proj1 (count_replaces_select_clause _ b) "x, y"
               (" " ++ dq ++ "T" ++ dq ++ " WHERE " ++ dq ++ "x" ++ dq ++ " = ?")
               Logic.eq_refl Logic.eq_refl Logic.eq_refl).
    reflexivity.
  - rewrite (proj1 (proj2 (count_replaces_select_clause _ (DataPantryDatabase.select ["x"])))
               Logic.eq_refl).
    reflexivity.
Defined.

(** C3, refuted as stated: on [select('x')] without [from] the pattern does
    not match, and [count()] is no failure: the statement goes to the
    database as it is and the [count] field of the answer's first row, here
    [undefined], is returned. *)
Lemma count_without_from_is_no_error :
  testSelectFrom (QueryBuilder.query (DataPantryDatabase.select ["x"])) = false
  /\ SelectQueryBuilder.count
       (answering "SELECT x" [JObj [("x", JNum 1)]]) (DataPantryDatabase.select ["x"])
     = inr JUndefined.
Proof. split; reflexivity. Qed.

(** The match is greedy: a later [ FROM] on the same line, as in a join
    condition with a subquery, takes the clauses before it along. *)
Example count_greedy :
  replaceSelectFrom
    (QueryBuilder.query
       (SelectQueryBuilder.join
          (SelectQueryBuilder.from (DataPantryDatabase.select ["x"]) "T")
          "U" "U.id IN (SELECT id FROM V)"))
    countClause
  = countClause ++ " V)".
Proof. reflexivity. Qed.

(** ** Chains of [where] and [orWhere] *)

(** The three copies of [where] and of [orWhere] do the same. *)
Lemma callWhere_eq (k : Kind) (b : QueryBuilder.t) (w : WhereCall) :
  callWhere k b w
  = {| QueryBuilder.query :=
         if includes (QueryBuilder.query b) "WHERE"
         then QueryBuilder.query b ++ laterWhereText w
         else QueryBuilder.query b ++ " WHERE " ++ WhereCondition.sql (conditionOf w);
       QueryBuilder.params :=
         (QueryBuilder.params b ++ WhereCondition.params (conditionOf w))%list |}.
Proof. destruct k, w; reflexivity. Qed.

Lemma whereChain_later (k : Kind) (ws : list WhereCall) (b : QueryBuilder.t) :
  includes (QueryBuilder.query b) "WHERE" = true ->
  QueryBuilder.query (whereChain k b ws)
    = QueryBuilder.query b ++ concatTexts (map laterWhereText ws)
  /\ QueryBuilder.params (whereChain k b ws)
    = (QueryBuilder.params b
       ++ flat_map (fun w => WhereCondition.params (conditionOf w)) ws)%list.
Proof.
  revert b. induction ws as [|w ws IH]; intros b Hb.
  - simpl. now rewrite append_empty_r, app_nil_r.
  - unfold whereChain in *. cbn [fold_left]. rewrite callWhere_eq, Hb.
    destruct (IH {| QueryBuilder.query := QueryBuilder.query b ++ laterWhereText w;
                    QueryBuilder.params :=
                      (QueryBuilder.params b
                       ++ WhereCondition.params (conditionOf w))%list |})
      as [Hq Hp].
    { cbn [QueryBuilder.query]. now apply includes_app_l. }
    rewrite Hq, Hp. cbn [QueryBuilder.query QueryBuilder.params map concatTexts flat_map].
    now rewrite append_assoc, <- app_assoc.
Qed.

Lemma laterTexts_no_WHERE (ws : list WhereCall) :
  forallb whereFree ws = true ->
  occurrences "WHERE" (concatTexts (map laterWhereText ws)) = 0
  /\ startsBlank (concatTexts (map laterWhereText ws)) = true.
Proof.
  induction ws as [|w ws IH]; intros H; [split; reflexivity |].
  simpl in H. apply andb_prop in H. destruct H as [Hw Hws].
  destruct (IH Hws) as [Hocc Hblank].
  unfold whereFree in Hw. apply negb_true_iff, includes_occurrences in Hw.
  cbn [map concatTexts].
  destruct w as [c | c]; cbn [laterWhereText conditionOf] in *;
    rewrite append_assoc; split; try reflexivity.
  - change (" AND " ++ WhereCondition.sql c ++ concatTexts (map laterWhereText ws))
      with ("" ++ String " " ("AND" ++ String " "
              (WhereCondition.sql c ++ concatTexts (map laterWhereText ws)))).
    rewrite !occurrences_app_space by (reflexivity || discriminate).
    rewrite occurrences_app_blank by (reflexivity || discriminate || assumption).
    rewrite Hw, Hocc. reflexivity.
  - change (" OR " ++ WhereCondition.sql c ++ concatTexts (map laterWhereText ws))
      with ("" ++ String " " ("OR" ++ String " "
              (WhereCondition.sql c ++ concatTexts (map laterWhereText ws)))).
    rewrite !occurrences_app_space by (reflexivity || discriminate).
    rewrite occurrences_app_blank by (reflexivity || discriminate || assumption).
    rewrite Hw, Hocc. reflexivity.
Qed.

(** C2, as the code has it: on a statement whose text does not contain
    [WHERE] yet, and for conditions whose fragments do not contain it, the
    first [where] or [orWhere] call appends [ WHERE ] and its condition, every
    later call appends [ AND ] or [ OR ] and its condition, and the final
    text contains [WHERE] exactly once. *)
Theorem where_chain_single_WHERE (k : Kind) (b : QueryBuilder.t)
    (w : WhereCall) (ws : list WhereCall) :
  includes (QueryBuilder.query b) "WHERE" = false ->
  forallb whereFree (w :: ws) = true ->
  QueryBuilder.query (whereChain k b (w :: ws))
    = QueryBuilder.query b ++ " WHERE " ++ WhereCondition.sql (conditionOf w)
      ++ concatTexts (map laterWhereText ws)
  /\ occurrences "WHERE" (QueryBuilder.query (whereChain k b (w :: ws))) = 1
  /\ QueryBuilder.params (whereChain k b (w :: ws))
    = (QueryBuilder.params b
       ++ flat_map (fun w => WhereCondition.params (conditionOf w)) (w :: ws))%list.
Proof.
  intros Hb Hfree.
  cbn [forallb] in Hfree. apply andb_prop in Hfree. destruct Hfree as [Hw Hws].
  destruct (laterTexts_no_WHERE ws Hws) as [Hocc Hblank].
  unfold whereFree in Hw. apply negb_true_iff, includes_occurrences in Hw.
  apply includes_occurrences in Hb.
  unfold whereChain. cbn [fold_left]. fold (whereChain k (callWhere k b w) ws).
  rewrite callWhere_eq.
  replace (includes (QueryBuilder.query b) "WHERE") with false
    by (symmetry; now apply includes_occurrences).
  match goal with |- context [whereChain k ?b1 ws] =>
    destruct (whereChain_later k ws b1) as [Hq Hp] end.
  { cbn [QueryBuilder.query]. apply includes_app_r. reflexivity. }
  rewrite Hq, Hp. cbn [QueryBuilder.query QueryBuilder.params flat_map].
  rewrite !append_assoc, <- app_assoc.
  split; [reflexivity |]. split; [| reflexivity].
  change (QueryBuilder.query b ++ " WHERE " ++ WhereCondition.sql (conditionOf w)
          ++ concatTexts (map laterWhereText ws))
    with (QueryBuilder.query b ++ String " " ("WHERE" ++ String " "
            (WhereCondition.sql (conditionOf w) ++ concatTexts (map laterWhereText ws)))).
  rewrite !occurrences_app_space by (reflexivity || discriminate).
  rewrite occurrences_app_blank by (reflexivity || discriminate || assumption).
  rewrite Hb, Hw, Hocc. reflexivity.
Qed.

Lemma where_chain_single_WHERE_witness :
  let final :=
    whereChain Delete (DeleteQueryBuilder.from DataPantryDatabase.delete "T")
      [Where (Conditions.eq "x" (JNum 3)); OrWhere (Conditions.gt "y" (JNum 4));
       Where (Conditions.like "color" "r%")] in
  QueryBuilder.query final
    = "DELETE FROM " ++ dq ++ "T" ++ dq ++ " WHERE " ++ dq ++ "x" ++ dq ++ " = ? OR "
      ++ dq ++ "y" ++ dq ++ " > ? AND " ++ dq ++ "color" ++ dq ++ " LIKE ?"
  /\ occurrences "WHERE" (QueryBuilder.query final) = 1.
Proof.
  intros final.
  destruct (where_chain_single_WHERE Delete
              (DeleteQueryBuilder.from DataPantryDatabase.delete "T")
              (Where (Conditions.eq "x" (JNum 3)))
              [OrWhere (Conditions.gt "y" (JNum 4)); Where (Conditions.like "color" "r%")]
              Logic.eq_refl Logic.eq_refl) as [Hq [Hocc _]].
  split; [exact Hq | exact Hocc].
Defined.

(** C2, refuted as stated: a condition on a column called [WHERE] puts the
    word into the text a second time, and on a fresh SELECT of a column whose
    name contains [WHERE] the first call already appends [ AND ]. *)
Lemma where_chain_second_WHERE :
  occurrences "WHERE"
    (QueryBuilder.query
       (whereChain Update (DataPantryDatabase.update "T")
          [Where (Conditions.eq "WHERE" (JNum 1))])) = 2
  /\ QueryBuilder.query
       (whereChain Select (DataPantryDatabase.select ["WHERE_ID"])
          [Where (Conditions.eq "x" (JNum 3))])
     = "SELECT WHERE_ID AND " ++ dq ++ "x" ++ dq ++ " = ?".
Proof. split; reflexivity. Qed.

(** ** Insert: [values] *)

Lemma prop_keys (o : JsObject) :
  NoDup (keys o) -> map (prop o) (keys o) = map snd o.
Proof.
  induction o as [|[k v] o IH]; intros Hnd; [reflexivity |].
  simpl in Hnd. inversion Hnd as [|? ? Hk Hnd']; subst.
  simpl. rewrite String.eqb_refl. f_equal.
  rewrite <- IH by assumption.
  apply map_ext_in. intros k' Hk'.
  destruct (String.eqb_spec k k') as [->|]; [contradiction | reflexivity].
Qed.

(** What [values] arrives at, whatever the builder held before: the text is
    built from the table and the rows alone, the values are appended. *)
Lemma values_spec (b : InsertQueryBuilder.t) (data : InsertData) :
  InsertQueryBuilder.values b data
  = match rowsOf data with
    | [] => inl TypeError
    | row0 :: _ =>
        inr {| InsertQueryBuilder.table := InsertQueryBuilder.table b;
               InsertQueryBuilder.query :=
                 insertText (InsertQueryBuilder.table b) (keys row0)
                            (List.length (rowsOf data));
               InsertQueryBuilder.params :=
                 (InsertQueryBuilder.params b ++ rowMajor (keys row0) (rowsOf data))%list |}
    end.
Proof.
  unfold InsertQueryBuilder.values, insertText, valueGroup, rowMajor.
  fold (rowsOf data). destruct (rowsOf data) as [|row0 rows]; [reflexivity |].
  now rewrite (map_const _ (row0 :: rows)), (map_const "?" (keys row0)).
Qed.

Lemma placeholders_insertText (table : string) (columns : list string) (n : nat) :
  plain table = true ->
  forallb plain columns = true ->
  placeholders (insertText table columns n) = n * List.length columns.
Proof.
  intros Ht Hc. unfold insertText.
  rewrite !placeholders_app, placeholders_quoted, placeholders_join_quoted by assumption.
  rewrite placeholders_join_repeat, placeholders_valueGroup by reflexivity.
  apply plain_true in Ht. rewrite Ht. simpl. lia.
Qed.

Lemma length_rowMajor (columns : list string) (rows : list JsObject) :
  List.length (rowMajor columns rows) = List.length rows * List.length columns.
Proof.
  unfold rowMajor. apply flat_map_constant_length.
  intros row _. apply length_map.
Qed.

Lemma plainInsertData_first (data : InsertData) (row0 : JsObject) (rows : list JsObject) :
  plainInsertData data = true ->
  rowsOf data = row0 :: rows ->
  forallb plain (keys row0) = true.
Proof.
  destruct data as [r | rs]; simpl; intros Hp Hr.
  - now injection Hr as -> _.
  - subst rs. simpl in Hp. now apply andb_prop in Hp.
Qed.

(** C5: [insert('T').values([{a:1,b:2},{a:3,b:4}])] builds
    [INSERT INTO "T" ("a", "b") VALUES (?, ?), (?, ?)] with the bound
    parameters [1,2,3,4]; in general the column list is the keys of the first
    row, there is one placeholder group per row, and the bound values are the
    rows' values for these columns, row after row. *)
Theorem insert_values_rows :
  (exists b,
      InsertQueryBuilder.values (DataPantryDatabase.insert "T")
        (Rows [[("a", JNum 1); ("b", JNum 2)]; [("a", JNum 3); ("b", JNum 4)]]) = inr b
      /\ InsertQueryBuilder.query b
         = "INSERT INTO " ++ dq ++ "T" ++ dq ++ " (" ++ dq ++ "a" ++ dq ++ ", "
           ++ dq ++ "b" ++ dq ++ ") VALUES (?, ?), (?, ?)"
      /\ InsertQueryBuilder.params b = [JNum 1; JNum 2; JNum 3; JNum 4])
  /\ (forall (table : string) (row0 : JsObject) (rows : list JsObject),
      exists b,
        InsertQueryBuilder.values (DataPantryDatabase.insert table) (Rows (row0 :: rows))
          = inr b
        /\ InsertQueryBuilder.query b
           = "INSERT INTO " ++ dq ++ table ++ dq ++ " ("
             ++ join ", " (map quoted (keys row0)) ++ ") VALUES "
             ++ join ", " (repeat (valueGroup (List.length (keys row0)))
                                  (List.length (row0 :: rows)))
        /\ InsertQueryBuilder.params b
           = flat_map (fun row => map (prop row) (keys row0)) (row0 :: rows)
        /\ (NoDup (keys row0) ->
            Forall (fun row => keys row = keys row0) rows ->
            InsertQueryBuilder.params b = flat_map (map snd) (row0 :: rows))).
Proof.
  split.
  - eexists. split; [reflexivity |]. split; reflexivity.
  - intros table row0 rows. rewrite values_spec. cbn [rowsOf].
    eexists. split; [reflexivity |].
    cbn [rowsOf InsertQueryBuilder.query InsertQueryBuilder.params
         InsertQueryBuilder.table DataPantryDatabase.insert InsertQueryBuilder.new
         List.app].
    split; [unfold insertText, quoted at 1; now rewrite !append_assoc |].
    split; [reflexivity |]. unfold rowMajor.
    intros Hnd Hall.
    assert (Hall' : Forall (fun row => keys row = keys row0) (row0 :: rows))
      by (constructor; [reflexivity | assumption]).
    clear Hall. induction Hall' as [|row rs Hrow _ IH]; [reflexivity |].
    cbn [flat_map]. rewrite IH. f_equal.
    rewrite <- Hrow. apply prop_keys. now rewrite Hrow.
Qed.

Lemma insert_values_rows_witness :
  exists b,
    InsertQueryBuilder.values (DataPantryDatabase.insert "Pixels")
      (Rows [[("x", JNum 3); ("y", JNum 4); ("color", JStr "red")];
             [("x", JNum 5); ("y", JNum 6); ("color", JStr "blue")]]) = inr b
    /\ InsertQueryBuilder.params b
       = [JNum 3; JNum 4; JStr "red"; JNum 5; JNum 6; JStr "blue"].
Proof.
  destruct (proj2 insert_values_rows "Pixels"
              [("x", JNum 3); ("y", JNum 4); ("color", JStr "red")]
              [[("x", JNum 5); ("y", JNum 6); ("color", JStr "blue")]])
    as [b [Hb [_ [_ Hflat]]]].
  exists b. split; [exact Hb |].
  rewrite Hflat; [reflexivity | |].
  - repeat constructor; simpl; intuition discriminate.
  - repeat constructor.
Defined.

(** ** Insert: [values] called again *)

(** C9: a second [values] call on an INSERT builder replaces the statement
    text by the text of the second call alone and appends its values after
    those of the first call, so the bound parameters hold the values of both
    calls and the text holds placeholders for the second only. *)
Theorem values_twice (table : string) (d1 d2 : InsertData)
    (b1 b2 : InsertQueryBuilder.t) :
  InsertQueryBuilder.values (DataPantryDatabase.insert table) d1 = inr b1 ->
  InsertQueryBuilder.values b1 d2 = inr b2 ->
  exists alone,
    InsertQueryBuilder.values (DataPantryDatabase.insert table) d2 = inr alone
    /\ InsertQueryBuilder.query b2 = InsertQueryBuilder.query alone
    /\ InsertQueryBuilder.params b2
       = (InsertQueryBuilder.params b1 ++ InsertQueryBuilder.params alone)%list
    /\ (plain table = true -> plainInsertData d2 = true ->
        placeholders (InsertQueryBuilder.query b2)
        = List.length (InsertQueryBuilder.params alone)).
Proof.
  rewrite !values_spec. intros H1 H2.
  destruct (rowsOf d1) as [|r1 rs1] eqn:E1; [discriminate |].
  injection H1 as <-. cbn [InsertQueryBuilder.table] in H2.
  destruct (rowsOf d2) as [|r2 rs2] eqn:E2; [discriminate |].
  injection H2 as <-.
  eexists. split; [reflexivity |].
  cbn [InsertQueryBuilder.query InsertQueryBuilder.params InsertQueryBuilder.table
       DataPantryDatabase.insert InsertQueryBuilder.new List.app].
  split; [reflexivity |]. split; [reflexivity |].
  intros Ht Hd.
  rewrite placeholders_insertText, length_rowMajor;
    [reflexivity | assumption | now apply (plainInsertData_first d2 r2 rs2)].
Qed.

Lemma values_twice_witness :
  exists b2,
    (b1 <- InsertQueryBuilder.values (DataPantryDatabase.insert "T")
             (OneRow [("a", JNum 1)]) ;;
     InsertQueryBuilder.values b1 (OneRow [("a", JNum 2)])) = inr b2
    /\ InsertQueryBuilder.query b2
       = "INSERT INTO " ++ dq ++ "T" ++ dq ++ " (" ++ dq ++ "a" ++ dq ++ ") VALUES (?)"
    /\ InsertQueryBuilder.params b2 = [JNum 1; JNum 2].
Proof.
  eexists. split; [reflexivity |].
  destruct (values_twice "T" (OneRow [("a", JNum 1)]) (OneRow [("a", JNum 2)])
              _ _ Logic.eq_refl Logic.eq_refl) as [alone [Ha [Hq [Hp _]]]].
  injection Ha as <-. split; [exact Hq | exact Hp].
Defined.

(** ** Placeholders and bound parameters *)

Section Chains.
Variable Call : Type.
Variable step : QueryBuilder.t -> Call -> QueryBuilder.t.
Variable ok : Call -> bool.
Variable bound : Call -> list JsValue.
Hypothesis step_appends :
  forall b c, ok c = true -> appendsAligned b (step b c) (bound c).

Lemma step_aligned (b : QueryBuilder.t) (c : Call) :
  ok c = true -> aligned b -> aligned (step b c).
Proof.
  intros Hc Hb. destruct (step_appends b c Hc) as [frag [Hq [Hp Hn]]].
  unfold aligned in *. rewrite Hq, Hp, placeholders_app, length_app. lia.
Qed.

Lemma chain_aligned (calls : list Call) (b : QueryBuilder.t) :
  forallb ok calls = true ->
  aligned b ->
  aligned (fold_left step calls b)
  /\ QueryBuilder.params (fold_left step calls b)
     = (QueryBuilder.params b ++ flat_map bound calls)%list.
Proof.
  revert b. induction calls as [|c calls IH]; intros b Hok Hb.
  - simpl. now rewrite app_nil_r.
  - cbn [forallb] in Hok. apply andb_prop in Hok. destruct Hok as [Hc Hok].
    cbn [fold_left flat_map].
    destruct (IH (step b c) Hok (step_aligned b c Hc Hb)) as [Ha Hp].
    split; [exact Ha |]. rewrite Hp.
    destruct (step_appends b c Hc) as [frag [_ [Hp' _]]].
    now rewrite Hp', <- app_assoc.
Qed.
End Chains.

Lemma where_appends (conj : string) (b : QueryBuilder.t) (w : WhereCondition.t) :
  alignedCondition w = true ->
  placeholders conj = 0 ->
  appendsAligned b
    {| QueryBuilder.query :=
         if includes (QueryBuilder.query b) "WHERE"
         then QueryBuilder.query b ++ conj ++ WhereCondition.sql w
         else QueryBuilder.query b ++ " WHERE " ++ WhereCondition.sql w;
       QueryBuilder.params := (QueryBuilder.params b ++ WhereCondition.params w)%list |}
    (WhereCondition.params w).
Proof.
  intros Hw Hconj. apply Nat.eqb_eq in Hw.
  destruct (includes (QueryBuilder.query b) "WHERE");
    eexists; (split; [reflexivity |]); (split; [reflexivity |]);
    rewrite placeholders_app, Hw; [rewrite Hconj |]; reflexivity.
Qed.

Lemma plain_appends (b : QueryBuilder.t) (fragment : string) :
  placeholders fragment = 0 ->
  appendsAligned b
    {| QueryBuilder.query := QueryBuilder.query b ++ fragment;
       QueryBuilder.params := QueryBuilder.params b |} [].
Proof.
  intros H. exists fragment. split; [reflexivity |].
  split; [cbn; now rewrite app_nil_r | exact H].
Qed.

Lemma callSelect_appends (b : SelectQueryBuilder.t) (c : SelectCall) :
  plainSelectCall c = true ->
  appendsAligned b (callSelect b c) (boundBySelectCall c).
Proof.
  destruct c as [t | t on | t on | w | w | col d | n | n];
    cbn [plainSelectCall callSelect boundBySelectCall]; intros H;
    try (apply where_appends; [assumption | reflexivity]);
    apply plain_appends;
    rewrite ?andb_true_iff, ?plain_true in H;
    rewrite ?placeholders_app, ?placeholders_quoted, ?placeholders_numberText.
  - now rewrite H.
  - destruct H as [-> ->]. reflexivity.
  - destruct H as [-> ->]. reflexivity.
  - rewrite H. now destruct d.
  - reflexivity.
  - reflexivity.
Qed.

Lemma callUpdate_appends (b : UpdateQueryBuilder.t) (c : UpdateCall) :
  plainUpdateCall c = true ->
  appendsAligned b (callUpdate b c) (boundByUpdateCall c).
Proof.
  destruct c as [data | w | w];
    cbn [plainUpdateCall callUpdate boundByUpdateCall]; intros H;
    try (apply where_appends; [assumption | reflexivity]).
  eexists. split; [reflexivity |]. split; [reflexivity |].
  rewrite placeholders_app, placeholders_set_clause, length_map by assumption.
  reflexivity.
Qed.

Lemma callDelete_appends (b : DeleteQueryBuilder.t) (c : DeleteCall) :
  plainDeleteCall c = true ->
  appendsAligned b (callDelete b c) (boundByDeleteCall c).
Proof.
  destruct c as [t | w | w];
    cbn [plainDeleteCall callDelete boundByDeleteCall]; intros H;
    try (apply where_appends; [assumption | reflexivity]).
  apply plain_appends. apply plain_true in H.
  now rewrite placeholders_app, placeholders_quoted, H.
Qed.

Lemma select_aligned (columns : list string) :
  forallb plain columns = true -> aligned (DataPantryDatabase.select columns).
Proof.
  intros H. unfold aligned, DataPantryDatabase.select, SelectQueryBuilder.new.
  cbn [QueryBuilder.query QueryBuilder.params List.length].
  rewrite placeholders_app.
  destruct (Nat.eqb (List.length columns) 0); [reflexivity |].
  rewrite placeholders_join by reflexivity.
  rewrite list_sum_zero; [reflexivity |].
  intros n Hn. apply in_map_iff in Hn. destruct Hn as [s [<- Hs]].
  apply plain_true. now apply (proj1 (forallb_forall plain columns) H).
Qed.

Lemma update_aligned (table : string) :
  plain table = true -> aligned (DataPantryDatabase.update table).
Proof.
  intros H. apply plain_true in H.
  unfold aligned, DataPantryDatabase.update, UpdateQueryBuilder.new.
  cbn [QueryBuilder.query QueryBuilder.params List.length].
  now rewrite placeholders_app, placeholders_quoted, H.
Qed.

Lemma values_once_aligned (table : string) (data : InsertData)
    (b : InsertQueryBuilder.t) :
  plain table = true ->
  plainInsertData data = true ->
  InsertQueryBuilder.values (DataPantryDatabase.insert table) data = inr b ->
  placeholders (InsertQueryBuilder.query b)
  = List.length (InsertQueryBuilder.params b).
Proof.
  intros Ht Hd. rewrite values_spec.
  destruct (rowsOf data) as [|row0 rows] eqn:E; [discriminate |].
  intros Hb. injection Hb as <-.
  cbn [InsertQueryBuilder.query InsertQueryBuilder.params InsertQueryBuilder.table
       DataPantryDatabase.insert InsertQueryBuilder.new].
  rewrite placeholders_insertText, length_app, length_map, length_rowMajor;
    [reflexivity | assumption | now apply (plainInsertData_first data row0 rows)].
Qed.

(** Every statement a chain of clause calls arrives at has as many
    placeholders as bound parameters, provided that no text argument contains
    [?], that every condition is aligned, as those of the condition helpers
    are, and that an INSERT chain calls [values] no more than once. *)
Theorem chains_aligned (ch : Chain) (text : string) (bound : list JsValue) :
  plainChain ch = true ->
  statementOf ch = inr (text, bound) ->
  placeholders text = List.length bound.
Proof.
  destruct ch as [columns calls | table datas | table calls | calls];
    cbn [plainChain statementOf]; intros Hplain Hst.
  - apply andb_prop in Hplain. destruct Hplain as [Hcols Hcalls].
    injection Hst as <- <-.
    apply (chain_aligned SelectCall callSelect plainSelectCall boundBySelectCall
             callSelect_appends calls _ Hcalls (select_aligned columns Hcols)).
  - apply andb_prop in Hplain. destruct Hplain as [Hplain Hlen].
    apply andb_prop in Hplain. destruct Hplain as [Htable Hdatas].
    destruct datas as [|d [|d' datas]]; [| | discriminate].
    + injection Hst as <- <-. reflexivity.
    + cbn [callValues bind Monad_either] in Hst.
      destruct (InsertQueryBuilder.values (DataPantryDatabase.insert table) d)
        as [e | b] eqn:E; [discriminate |].
      cbn [ret Monad_either] in Hst. injection Hst as <- <-.
      cbn [forallb] in Hdatas. rewrite andb_true_r in Hdatas.
      now apply (values_once_aligned table d).
  - apply andb_prop in Hplain. destruct Hplain as [Htable Hcalls].
    injection Hst as <- <-.
    apply (chain_aligned UpdateCall callUpdate plainUpdateCall boundByUpdateCall
             callUpdate_appends calls _ Hcalls (update_aligned table Htable)).
  - injection Hst as <- <-.
    apply (chain_aligned DeleteCall callDelete plainDeleteCall boundByDeleteCall
             callDelete_appends calls _ Hplain).
    reflexivity.
Qed.

Lemma chains_aligned_witness :
  placeholders
    ("UPDATE " ++ dq ++ "T" ++ dq ++ " SET " ++ dq ++ "a" ++ dq ++ " = ?, "
     ++ dq ++ "b" ++ dq ++ " = ? WHERE " ++ dq ++ "id" ++ dq ++ " IN (?, ?)")
  = List.length [JNum 1; JStr "what?"; JNum 7; JNum 8].
Proof.
  apply (chains_aligned
           (UpdateChain "T"
              [USet [("a", JNum 1); ("b", JStr "what?")];
               UWhere (Conditions.inArray "id" [JNum 7; JNum 8])]));
    reflexivity.
Defined.

(** C1 fails on a repeated [values]: the second call replaces the text, with
    its one placeholder, and keeps the value the first call bound, so the
    statement has one placeholder and two bound parameters. *)
Theorem values_twice_misaligned :
  statementOf (InsertChain "T" [OneRow [("a", JNum 1)]; OneRow [("a", JNum 2)]])
  = inr ("INSERT INTO " ++ dq ++ "T" ++ dq ++ " (" ++ dq ++ "a" ++ dq ++ ") VALUES (?)",
         [JNum 1; JNum 2])
  /\ placeholders
       ("INSERT INTO " ++ dq ++ "T" ++ dq ++ " (" ++ dq ++ "a" ++ dq ++ ") VALUES (?)") = 1
  /\ List.length [JNum 1; JNum 2] = 2.
Proof. repeat split. Qed.

(** ** The schema normaliser *)

Lemma find_rows (columnName : JsValue) (foreignKeys : list JsValue) :
  forallb isRow foreignKeys = true ->
  exists fk,
    DataPantryDatabase.find columnName foreignKeys = inr fk
    /\ (fk = JUndefined \/ isRow fk = true).
Proof.
  induction foreignKeys as [|fk rest IH]; intros Hrows.
  - exists JUndefined. split; [reflexivity | now left].
  - simpl in Hrows. apply andb_prop in Hrows. destruct Hrows as [Hfk Hrest].
    destruct fk as [| | | | |o]; try discriminate.
    cbn [DataPantryDatabase.find member bind Monad_either].
    destruct (strict_eq (prop o "from") columnName).
    + exists (JObj o). split; [reflexivity | now right].
    + now apply IH.
Qed.

Lemma findForeignKey_rows (columnName : JsValue) (foreignKeys : list JsValue) :
  forallb isRow foreignKeys = true ->
  exists fk, DataPantryDatabase.findForeignKey columnName foreignKeys = inr fk.
Proof.
  intros Hrows. unfold DataPantryDatabase.findForeignKey.
  destruct (find_rows columnName foreignKeys Hrows) as [fk [-> Hfk]].
  cbn [bind Monad_either].
  destruct Hfk as [-> | Hrow].
  - now exists None.
  - destruct fk; try discriminate. simpl. eauto.
Qed.

(** C8, as the code has it: for a catalog column with the type name [type],
    the normaliser answers the datatype [number] exactly when the upper-cased
    type name contains [INT] or is [REAL], and [string] otherwise; the
    constraint is [primary] when [pk] is set, whatever [notnull] is, else
    [unique] when [notnull] is set, else [none]. *)
Theorem column_mapping (foreignKeys : list JsValue) (col : JsObject) (type : string) :
  forallb isRow foreignKeys = true ->
  prop col "type" = JStr type ->
  exists d,
    DataPantryDatabase.columnDescription foreignKeys (JObj col) = inr d
    /\ Column.name d = prop col "name"
    /\ Column.datatype d
       = (if includes (toUpperCase type) "INT" || String.eqb (toUpperCase type) "REAL"
          then "number" else "string")
    /\ Column.constraint d
       = (if truthy (prop col "pk") then "primary"
          else if truthy (prop col "notnull") then "unique" else "none")
    /\ Column.isRequired d = strict_eq (prop col "notnull") (JNum 1).
Proof.
  intros Hrows Htype.
  destruct (findForeignKey_rows (prop col "name") foreignKeys Hrows) as [fk Hfk].
  unfold DataPantryDatabase.columnDescription.
  cbn [member bind Monad_either]. rewrite Htype.
  unfold DataPantryDatabase.mapSQLiteType.
  destruct (includes (toUpperCase type) "INT") eqn:Eint;
    [| destruct (String.eqb (toUpperCase type) "REAL") eqn:Ereal;
       [| destruct (String.eqb (toUpperCase type) "TEXT")]];
    cbn [ret bind Monad_either orb]; rewrite Hfk;
    eexists; (split; [reflexivity |]); cbn [Column.name Column.datatype
      Column.constraint Column.isRequired]; repeat split; reflexivity.
Qed.

Lemma column_mapping_witness :
  exists d,
    DataPantryDatabase.columnDescription [] (pixelsColumn 0 "id" "INTEGER" 0 1) = inr d
    /\ Column.datatype d = "number"
    /\ Column.constraint d = "primary".
Proof.
  destruct (column_mapping []
              [("cid", JNum 0); ("name", JStr "id"); ("type", JStr "INTEGER");
               ("notnull", JNum 0); ("dflt_value", JNull); ("pk", JNum 1)]
              "INTEGER" Logic.eq_refl Logic.eq_refl)
    as [d [Hd [_ [Hty [Hc _]]]]].
  exists d. split; [exact Hd |]. split; [exact Hty | exact Hc].
Defined.

(** C8, refuted as stated: the type name [int] neither contains [INT] nor is
    [REAL], and the normaliser answers [number] for it. *)
Lemma lower_case_int_is_number :
  includes "int" "INT" = false
  /\ String.eqb "int" "REAL" = false
  /\ DataPantryDatabase.mapSQLiteType (JStr "int") = inr "number".
Proof. repeat split; reflexivity. Qed.

Lemma mapM_inr {A B : Type} (f : A -> JsError + B) (xs : list A) (ys : list B) :
  mapM f xs = inr ys -> Forall2 (fun x y => f x = inr y) xs ys.
Proof.
  revert ys. induction xs as [|x xs IH]; intros ys H.
  - injection H as <-. constructor.
  - cbn [mapM bind Monad_either] in H.
    destruct (f x) as [e | y] eqn:Ex; [discriminate |].
    destruct (mapM f xs) as [e | ys'] eqn:Exs; [discriminate |].
    injection H as <-. constructor; [exact Ex | now apply IH].
Qed.

(** Every column of a schema is the description of the catalog column at
    the same place: [schema] asks for the tables, then for the columns and the
    foreign keys of each, and maps the columns in the order of the answer. *)
Lemma schema_columns (sql : Executor) (s : Schema.t) :
  DataPantryDatabase.schema sql = inr s ->
  exists rows,
    sql DataPantryDatabase.tablesQuery [] = inr rows
    /\ Forall2
         (fun row t =>
            exists columns foreignKeys,
              member row "name" = inr (Table.name t)
              /\ sql ("PRAGMA table_info(" ++ quoted (toString (Table.name t)) ++ ")") []
                 = inr columns
              /\ sql ("PRAGMA foreign_key_list(" ++ quoted (toString (Table.name t)) ++ ")") []
                 = inr foreignKeys
              /\ Forall2
                   (fun col d =>
                      DataPantryDatabase.columnDescription foreignKeys col = inr d)
                   columns (Table.columns t))
         rows (Schema.tables s).
Proof.
  unfold DataPantryDatabase.schema. cbn [bind Monad_either].
  destruct (sql DataPantryDatabase.tablesQuery []) as [e | rows]; [discriminate |].
  destruct (mapM (DataPantryDatabase.tableSchema sql) rows) as [e | ts] eqn:Ets;
    [discriminate |].
  intros H. injection H as <-. exists rows. split; [reflexivity |].
  cbn [Schema.tables]. apply mapM_inr in Ets.
  induction Ets as [|row t rows ts Hrow _ IH]; constructor; [| exact IH].
  unfold DataPantryDatabase.tableSchema in Hrow. cbn [bind Monad_either] in Hrow.
  destruct (member row "name") as [e | name]; [discriminate |].
  destruct (sql ("PRAGMA table_info(" ++ quoted (toString name) ++ ")") [])
    as [e | columns] eqn:Ec; [discriminate |].
  destruct (sql ("PRAGMA foreign_key_list(" ++ quoted (toString name) ++ ")") [])
    as [e | foreignKeys] eqn:Ef; [discriminate |].
  destruct (mapM (DataPantryDatabase.columnDescription foreignKeys) columns)
    as [e | cols] eqn:Em; [discriminate |].
  injection Hrow as <-. cbn [Table.name Table.columns].
  exists columns, foreignKeys. repeat split; try assumption.
  now apply mapM_inr.
Qed.

(** The catalog of the test script normalises to the schema the test
    expects. *)
Example pixels_schema :
  DataPantryDatabase.schema pixelsCatalog
  = inr {| Schema.tables :=
      [ {| Table.name := JStr "Pixels";
           Table.columns :=
             [ Column.mk (JStr "id") "number" "primary" true None;
               Column.mk (JStr "x") "number" "none" false None;
               Column.mk (JStr "y") "number" "none" false None;
               Column.mk (JStr "color") "string" "none" false None ] |} ] |}.
Proof. reflexivity. Qed.

(** * Further properties of the builders *)

(** ** Bound parameters in call order *)

Section CallOrder.
Variable Call : Type.
Variable step : QueryBuilder.t -> Call -> QueryBuilder.t.
Variable bound : Call -> list JsValue.
Hypothesis step_params :
  forall b c, QueryBuilder.params (step b c) = (QueryBuilder.params b ++ bound c)%list.
Hypothesis step_query :
  forall b c, exists fragment,
    QueryBuilder.query (step b c) = QueryBuilder.query b ++ fragment.

Lemma fold_params (calls : list Call) (b : QueryBuilder.t) :
  QueryBuilder.params (fold_left step calls b)
  = (QueryBuilder.params b ++ flat_map bound calls)%list.
Proof.
  revert b. induction calls as [|c calls IH]; intros b.
  - simpl. now rewrite app_nil_r.
  - cbn [fold_left flat_map]. now rewrite IH, step_params, <- app_assoc.
Qed.

Lemma fold_query (calls : list Call) (b : QueryBuilder.t) :
  exists suffix,
    QueryBuilder.query (fold_left step calls b) = QueryBuilder.query b ++ suffix.
Proof.
  revert b. induction calls as [|c calls IH]; intros b.
  - exists "". simpl. now rewrite append_empty_r.
  - cbn [fold_left]. destruct (IH (step b c)) as [suffix Hs].
    destruct (step_query b c) as [fragment Hf].
    exists (fragment ++ suffix). now rewrite Hs, Hf, append_assoc.
Qed.
End CallOrder.

Lemma callSelect_params (b : SelectQueryBuilder.t) (c : SelectCall) :
  QueryBuilder.params (callSelect b c)
  = (QueryBuilder.params b ++ boundBySelectCall c)%list.
Proof. destruct c; cbn; now rewrite ?app_nil_r. Qed.

Lemma callUpdate_params (b : UpdateQueryBuilder.t) (c : UpdateCall) :
  QueryBuilder.params (callUpdate b c)
  = (QueryBuilder.params b ++ boundByUpdateCall c)%list.
Proof. destruct c; reflexivity. Qed.

Lemma callDelete_params (b : DeleteQueryBuilder.t) (c : DeleteCall) :
  QueryBuilder.params (callDelete b c)
  = (QueryBuilder.params b ++ boundByDeleteCall c)%list.
Proof. destruct c; cbn; now rewrite ?app_nil_r. Qed.

Lemma where_query (conj : string) (b : QueryBuilder.t) (w : WhereCondition.t) :
  exists fragment,
    (if includes (QueryBuilder.query b) "WHERE"
     then QueryBuilder.query b ++ conj ++ WhereCondition.sql w
     else QueryBuilder.query b ++ " WHERE " ++ WhereCondition.sql w)
    = QueryBuilder.query b ++ fragment.
Proof. destruct (includes (QueryBuilder.query b) "WHERE"); eexists; reflexivity. Qed.

Lemma callSelect_query (b : SelectQueryBuilder.t) (c : SelectCall) :
  exists fragment,
    QueryBuilder.query (callSelect b c) = QueryBuilder.query b ++ fragment.
Proof.
  destruct c; cbn [callSelect]; try (eexists; reflexivity);
    apply where_query.
Qed.

Lemma callUpdate_query (b : UpdateQueryBuilder.t) (c : UpdateCall) :
  exists fragment,
    QueryBuilder.query (callUpdate b c) = QueryBuilder.query b ++ fragment.
Proof.
  destruct c; cbn [callUpdate]; try (eexists; reflexivity);
    apply where_query.
Qed.

Lemma callDelete_query (b : DeleteQueryBuilder.t) (c : DeleteCall) :
  exists fragment,
    QueryBuilder.query (callDelete b c) = QueryBuilder.query b ++ fragment.
Proof.
  destruct c; cbn [callDelete]; try (eexists; reflexivity);
    apply where_query.
Qed.

(** The bound parameters of a SELECT, UPDATE or DELETE chain are the values
    its calls bind, in the order of the calls: the values of every condition
    for [where] and [orWhere], the values of the object in key order for
    [set], nothing for the other calls. *)
Theorem chain_params_in_call_order :
  (forall columns calls,
      QueryBuilder.params (fold_left callSelect calls (DataPantryDatabase.select columns))
      = flat_map boundBySelectCall calls)
  /\ (forall table calls,
      QueryBuilder.params (fold_left callUpdate calls (DataPantryDatabase.update table))
      = flat_map boundByUpdateCall calls)
  /\ (forall calls,
      QueryBuilder.params (fold_left callDelete calls DataPantryDatabase.delete)
      = flat_map boundByDeleteCall calls).
Proof.
  repeat split; intros.
  - apply (fold_params SelectCall callSelect boundBySelectCall callSelect_params).
  - apply (fold_params UpdateCall callUpdate boundByUpdateCall callUpdate_params).
  - apply (fold_params DeleteCall callDelete boundByDeleteCall callDelete_params).
Qed.

(** No call of a SELECT, UPDATE or DELETE chain rewrites what is already in
    the statement text: the text a chain arrives at starts with the text it
    was called on. *)
Theorem chain_text_append_only :
  (forall calls b, exists suffix,
      QueryBuilder.query (fold_left callSelect calls b) = QueryBuilder.query b ++ suffix)
  /\ (forall calls b, exists suffix,
      QueryBuilder.query (fold_left callUpdate calls b) = QueryBuilder.query b ++ suffix)
  /\ (forall calls b, exists suffix,
      QueryBuilder.query (fold_left callDelete calls b) = QueryBuilder.query b ++ suffix).
Proof.
  repeat split; intros.
  - apply (fold_query SelectCall callSelect callSelect_query).
  - apply (fold_query UpdateCall callUpdate callUpdate_query).
  - apply (fold_query DeleteCall callDelete callDelete_query).
Qed.

(** ** Update: [set] *)

(** [set(data)] binds the values of the object in key order, one placeholder
    for each, whatever the builder held before. *)
Theorem set_binds_in_key_order (b : UpdateQueryBuilder.t) (data : JsObject) :
  NoDup (keys data) ->
  forallb plain (keys data) = true ->
  QueryBuilder.params (UpdateQueryBuilder.set b data)
    = (QueryBuilder.params b ++ map snd data)%list
  /\ placeholders (QueryBuilder.query (UpdateQueryBuilder.set b data))
    = placeholders (QueryBuilder.query b) + List.length data.
Proof.
  intros Hnd Hplain. unfold UpdateQueryBuilder.set.
  cbn [QueryBuilder.query QueryBuilder.params]. split.
  - now rewrite prop_keys.
  - rewrite !placeholders_app, placeholders_set_clause by assumption.
    unfold keys. rewrite length_map. reflexivity.
Qed.

Lemma set_binds_in_key_order_witness :
  QueryBuilder.params
    (UpdateQueryBuilder.set (DataPantryDatabase.update "Pixels")
       [("color", JStr "red"); ("x", JNum 3)])
  = [JStr "red"; JNum 3].
Proof.
  apply (proj1 (set_binds_in_key_order (DataPantryDatabase.update "Pixels")
                  [("color", JStr "red"); ("x", JNum 3)]
                  ltac:(repeat constructor; simpl; intuition discriminate)
                  Logic.eq_refl)).
Defined.

(** ** [where] and [orWhere] *)

(** As long as the text does not contain [WHERE], [orWhere] does what [where]
    does: the first condition of a statement is introduced by [ WHERE ]
    whichever of the two is called. *)
Theorem orWhere_first_is_where (b : QueryBuilder.t) (c : WhereCondition.t) :
  includes (QueryBuilder.query b) "WHERE" = false ->
  SelectQueryBuilder.orWhere b c = SelectQueryBuilder.where_ b c
  /\ UpdateQueryBuilder.orWhere b c = UpdateQueryBuilder.where_ b c
  /\ DeleteQueryBuilder.orWhere b c = DeleteQueryBuilder.where_ b c
  /\ QueryBuilder.query (SelectQueryBuilder.where_ b c)
     = QueryBuilder.query b ++ " WHERE " ++ WhereCondition.sql c.
Proof.
  intros H.
  unfold SelectQueryBuilder.orWhere, SelectQueryBuilder.where_,
    UpdateQueryBuilder.orWhere, UpdateQueryBuilder.where_,
    DeleteQueryBuilder.orWhere, DeleteQueryBuilder.where_.
  cbn [QueryBuilder.query]. rewrite H. repeat split.
Qed.

Lemma orWhere_first_is_where_witness :
  SelectQueryBuilder.orWhere
    (SelectQueryBuilder.from (DataPantryDatabase.select []) "T")
    (Conditions.eq "x" (JNum 3))
  = SelectQueryBuilder.where_
      (SelectQueryBuilder.from (DataPantryDatabase.select []) "T")
      (Conditions.eq "x" (JNum 3)).
Proof.
  apply (proj1 (orWhere_first_is_where
                  (SelectQueryBuilder.from (DataPantryDatabase.select []) "T")
                  (Conditions.eq "x" (JNum 3)) Logic.eq_refl)).
Defined.

(** Once the text contains [WHERE], every [where] appends [ AND ] and every
    [orWhere] appends [ OR ] before the condition, and the text contains
    [WHERE] from then on. *)
Theorem where_after_WHERE (b : QueryBuilder.t) (c : WhereCondition.t) :
  includes (QueryBuilder.query b) "WHERE" = true ->
  QueryBuilder.query (SelectQueryBuilder.where_ b c)
    = QueryBuilder.query b ++ " AND " ++ WhereCondition.sql c
  /\ QueryBuilder.query (SelectQueryBuilder.orWhere b c)
    = QueryBuilder.query b ++ " OR " ++ WhereCondition.sql c
  /\ includes (QueryBuilder.query (SelectQueryBuilder.where_ b c)) "WHERE" = true
  /\ includes (QueryBuilder.query (SelectQueryBuilder.orWhere b c)) "WHERE" = true.
Proof.
  intros H. unfold SelectQueryBuilder.orWhere, SelectQueryBuilder.where_.
  cbn [QueryBuilder.query]. rewrite H.
  repeat split; now apply includes_app_l.
Qed.

Lemma where_after_WHERE_witness :
  QueryBuilder.query
    (SelectQueryBuilder.orWhere
       (SelectQueryBuilder.where_
          (SelectQueryBuilder.from (DataPantryDatabase.select []) "T")
          (Conditions.eq "x" (JNum 3)))
       (Conditions.lt "y" (JNum 4)))
  = QueryBuilder.query
      (SelectQueryBuilder.where_
         (SelectQueryBuilder.from (DataPantryDatabase.select []) "T")
         (Conditions.eq "x" (JNum 3)))
    ++ " OR " ++ WhereCondition.sql (Conditions.lt "y" (JNum 4)).
Proof.
  apply (proj1 (proj2 (where_after_WHERE
                         (SelectQueryBuilder.where_
                            (SelectQueryBuilder.from (DataPantryDatabase.select []) "T")
                            (Conditions.eq "x" (JNum 3)))
                         (Conditions.lt "y" (JNum 4)) Logic.eq_refl))).
Defined.

(** The three builders with conditions share one behaviour: [where],
    [orWhere] and [from] of the UPDATE and DELETE builders are the functions
    of the SELECT builder. *)
Theorem where_same_on_all_kinds :
  UpdateQueryBuilder.where_ = SelectQueryBuilder.where_
  /\ DeleteQueryBuilder.where_ = SelectQueryBuilder.where_
  /\ UpdateQueryBuilder.orWhere = SelectQueryBuilder.orWhere
  /\ DeleteQueryBuilder.orWhere = SelectQueryBuilder.orWhere
  /\ DeleteQueryBuilder.from = SelectQueryBuilder.from.
Proof. repeat split. Qed.

(** ** The condition helpers on a column *)

Lemma condition_helpers_aligned_witness :
  alignedCondition (Conditions.inArray "id" [JNum 7; JStr "8?"; JNull]) = true.
Proof.
  apply (proj1 (proj2 (proj2 (proj2 (proj2 (proj2 (proj2 (proj2
           (condition_helpers_aligned "id" JNull "" [JNum 7; JStr "8?"; JNull]
              Logic.eq_refl))))))))).
Defined.

Lemma condition_helpers_whereFree_witness :
  includes (WhereCondition.sql (Conditions.like "color" "WHERE%")) "WHERE" = false.
Proof.
  apply (proj1 (proj2 (proj2 (proj2 (proj2 (proj2 (proj2
           (condition_helpers_whereFree "color" JNull "WHERE%" []
              Logic.eq_refl)))))))).
Defined.

(** ** Insert: the rows [values] accepts *)

(** Of the arguments it is written for, a row object and arrays of row
    objects, [values] refuses the empty array alone, with a [TypeError]; on a
    row object and on every array with a row in it [values] succeeds and
    keeps the table, and one row object is handled as the array of that
    row. *)
Theorem values_fails_on_empty_array_only (b : InsertQueryBuilder.t) :
  InsertQueryBuilder.values b (Rows []) = inl TypeError
  /\ (forall row,
        InsertQueryBuilder.values b (OneRow row)
        = InsertQueryBuilder.values b (Rows [row]))
  /\ (forall data, data <> Rows [] ->
        exists b', InsertQueryBuilder.values b data = inr b'
                   /\ InsertQueryBuilder.table b' = InsertQueryBuilder.table b).
Proof.
  split; [reflexivity |]. split; [reflexivity |].
  intros data Hne. rewrite values_spec.
  destruct data as [row | [|row rows]]; cbn [rowsOf];
    [| contradiction |]; eexists; split; reflexivity.
Qed.

Lemma values_fails_on_empty_array_only_witness :
  exists b',
    InsertQueryBuilder.values (DataPantryDatabase.insert "T") (OneRow []) = inr b'
    /\ InsertQueryBuilder.table b' = "T".
Proof.
  apply (proj2 (proj2 (values_fails_on_empty_array_only
                         (DataPantryDatabase.insert "T"))) (OneRow [])).
  discriminate.
Defined.

Lemma prop_missing (o : JsObject) (k : string) :
  ~ In k (keys o) -> prop o k = JUndefined.
Proof.
  induction o as [|[k' v] o IH]; intros Hk; [reflexivity |].
  simpl in *. destruct (String.eqb_spec k' k) as [->|Hne].
  - exfalso. apply Hk. now left.
  - apply IH. intros Hin. apply Hk. now right.
Qed.

(** The text of an INSERT depends on the table, on the keys of the first row
    and on the number of rows only: later rows with other keys change
    nothing in it.  For each row as many values are bound as the first row
    has keys, whatever keys the row has itself. *)
Theorem values_takes_columns_from_first_row (b x x' : InsertQueryBuilder.t)
    (row0 row0' : JsObject) (rows rows' : list JsObject) :
  keys row0 = keys row0' ->
  List.length rows = List.length rows' ->
  InsertQueryBuilder.values b (Rows (row0 :: rows)) = inr x ->
  InsertQueryBuilder.values b (Rows (row0' :: rows')) = inr x' ->
  InsertQueryBuilder.query x = InsertQueryBuilder.query x'
  /\ List.length (InsertQueryBuilder.params x)
     = List.length (InsertQueryBuilder.params b)
       + List.length (row0 :: rows) * List.length (keys row0).
Proof.
  intros Hkeys Hlen. rewrite !values_spec. cbn [rowsOf].
  intros Hx Hx'. injection Hx as <-. injection Hx' as <-.
  cbn [InsertQueryBuilder.query InsertQueryBuilder.params].
  split.
  - cbn [List.length]. now rewrite Hkeys, Hlen.
  - rewrite !length_app, length_map, length_rowMajor. simpl. lia.
Qed.

Lemma values_takes_columns_from_first_row_witness :
  exists x,
    InsertQueryBuilder.values (DataPantryDatabase.insert "T")
      (Rows [[("a", JNum 1); ("b", JNum 2)]; [("b", JNum 4); ("c", JNum 5)]]) = inr x
    /\ InsertQueryBuilder.query x
       = "INSERT INTO " ++ dq ++ "T" ++ dq ++ " (" ++ dq ++ "a" ++ dq ++ ", "
         ++ dq ++ "b" ++ dq ++ ") VALUES (?, ?), (?, ?)"
    /\ List.length (InsertQueryBuilder.params x) = 4.
Proof.
  eexists. split; [reflexivity |]. split; [| reflexivity].
  apply (proj1 (values_takes_columns_from_first_row
                  (DataPantryDatabase.insert "T") _ _
                  [("a", JNum 1); ("b", JNum 2)] [("a", JNum 1); ("b", JNum 2)]
                  [[("b", JNum 4); ("c", JNum 5)]] [[("a", JNum 3); ("b", JNum 4)]]
                  Logic.eq_refl Logic.eq_refl Logic.eq_refl Logic.eq_refl)).
Defined.

(** ** Select: what [count] keeps *)

Lemma singleLine_app (a b : string) :
  singleLine (a ++ b) = singleLine a && singleLine b.
Proof.
  induction a as [|c a IH]; [reflexivity |].
  cbn [append singleLine]. now rewrite IH, andb_assoc.
Qed.

(** The pattern of [count] is greedy: when the text has a further [ FROM] on
    the line of the SELECT clause, [count()] replaces everything up to the
    last one, so the table and the clauses before it are not in the statement
    that is executed. *)
Theorem count_keeps_after_last_FROM (sql : Executor) (b : SelectQueryBuilder.t)
    (cols clauses rest : string) :
  QueryBuilder.query b = "SELECT " ++ cols ++ " FROM" ++ clauses ++ " FROM" ++ rest ->
  singleLine cols = true ->
  singleLine clauses = true ->
  includes rest " FROM" = false ->
  SelectQueryBuilder.count sql b
  = (result <- sql (countClause ++ rest) (QueryBuilder.params b) ;;
     countField result).
Proof.
  intros Hq Hcols Hclauses Hrest. unfold SelectQueryBuilder.count.
  rewrite Hq.
  replace ("SELECT " ++ cols ++ " FROM" ++ clauses ++ " FROM" ++ rest)
    with ("SELECT " ++ (cols ++ " FROM" ++ clauses) ++ " FROM" ++ rest)
    by (now rewrite !append_assoc).
  rewrite replaceSelectFrom_clause; [reflexivity | | assumption].
  rewrite !singleLine_app, Hcols, Hclauses. reflexivity.
Qed.

Lemma count_keeps_after_last_FROM_witness :
  SelectQueryBuilder.count
    (answering (countClause ++ " V)") [JObj [("count", JNum 9)]])
    (SelectQueryBuilder.join
       (SelectQueryBuilder.from (DataPantryDatabase.select ["x"]) "T")
       "U" "U.id IN (SELECT id FROM V)")
  = inr (JNum 9).
Proof.
  rewrite (count_keeps_after_last_FROM _
             (SelectQueryBuilder.join
                (SelectQueryBuilder.from (DataPantryDatabase.select ["x"]) "T")
                "U" "U.id IN (SELECT id FROM V)") "x"
             (" " ++ dq ++ "T" ++ dq ++ " INNER JOIN " ++ dq ++ "U" ++ dq
              ++ " ON U.id IN (SELECT id")
             " V)" Logic.eq_refl Logic.eq_refl Logic.eq_refl Logic.eq_refl).
  reflexivity.
Defined.

(** [count()] needs a first row: on an empty answer it throws a [TypeError],
    where [first()] returns [null]; a first row without a [count] field gives
    [undefined], and a failure of the executor is passed on. *)
Theorem count_on_answers (sql : Executor) (b : SelectQueryBuilder.t) :
  let countQuery := replaceSelectFrom (QueryBuilder.query b) countClause in
  (sql countQuery (QueryBuilder.params b) = inr [] ->
   SelectQueryBuilder.count sql b = inl TypeError)
  /\ (forall row more,
        sql countQuery (QueryBuilder.params b) = inr (JObj row :: more) ->
        ~ In "count" (keys row) ->
        SelectQueryBuilder.count sql b = inr JUndefined)
  /\ (forall row more,
        sql countQuery (QueryBuilder.params b) = inr (JObj row :: more) ->
        SelectQueryBuilder.count sql b = inr (prop row "count"))
  /\ (forall e,
        sql countQuery (QueryBuilder.params b) = inl e ->
        SelectQueryBuilder.count sql b = inl e).
Proof.
  unfold SelectQueryBuilder.count. cbn zeta.
  repeat split; intros; rewrite H; cbn [bind Monad_either member index0];
    try reflexivity.
  now rewrite prop_missing.
Qed.

Lemma count_on_answers_witness :
  SelectQueryBuilder.count (fun _ _ => inr [])
    (SelectQueryBuilder.from (DataPantryDatabase.select []) "T")
  = inl TypeError
  /\ SelectQueryBuilder.first (fun _ _ => inr [])
       (SelectQueryBuilder.from (DataPantryDatabase.select []) "T")
     = inr JNull.
Proof.
  split; [| reflexivity].
  apply (proj1 (count_on_answers (fun _ _ => inr [])
                  (SelectQueryBuilder.from (DataPantryDatabase.select []) "T"))).
  reflexivity.
Defined.

(** ** Operands and the statement text *)

(** The operands of the condition helpers, the values of [set] and the
    values of a condition never reach the statement text: the text is the
    same whatever the operands are, as long as [inArray] gets as many of them
    and [set] the same keys. *)
Theorem operands_stay_out_of_the_text (column : string) :
  (forall v v',
      WhereCondition.sql (Conditions.eq column v) = WhereCondition.sql (Conditions.eq column v')
      /\ WhereCondition.sql (Conditions.ne column v) = WhereCondition.sql (Conditions.ne column v')
      /\ WhereCondition.sql (Conditions.gt column v) = WhereCondition.sql (Conditions.gt column v')
      /\ WhereCondition.sql (Conditions.gte column v) = WhereCondition.sql (Conditions.gte column v')
      /\ WhereCondition.sql (Conditions.lt column v) = WhereCondition.sql (Conditions.lt column v')
      /\ WhereCondition.sql (Conditions.lte column v) = WhereCondition.sql (Conditions.lte column v'))
  /\ (forall p p',
      WhereCondition.sql (Conditions.like column p) = WhereCondition.sql (Conditions.like column p'))
  /\ (forall vs vs', List.length vs = List.length vs' ->
      WhereCondition.sql (Conditions.inArray column vs)
      = WhereCondition.sql (Conditions.inArray column vs'))
  /\ (forall b data data', keys data = keys data' ->
      QueryBuilder.query (UpdateQueryBuilder.set b data)
      = QueryBuilder.query (UpdateQueryBuilder.set b data'))
  /\ (forall b c c', WhereCondition.sql c = WhereCondition.sql c' ->
      QueryBuilder.query (SelectQueryBuilder.where_ b c)
        = QueryBuilder.query (SelectQueryBuilder.where_ b c')
      /\ QueryBuilder.query (SelectQueryBuilder.orWhere b c)
        = QueryBuilder.query (SelectQueryBuilder.orWhere b c')).
Proof.
  repeat split.
  - intros vs vs' H. unfold Conditions.inArray. cbn [WhereCondition.sql].
    now rewrite !map_const, H.
  - intros b data data' H. unfold UpdateQueryBuilder.set.
    cbn [QueryBuilder.query]. now rewrite H.
  - unfold SelectQueryBuilder.where_. cbn [QueryBuilder.query]. now rewrite H.
  - unfold SelectQueryBuilder.orWhere. cbn [QueryBuilder.query]. now rewrite H.
Qed.

Lemma operands_stay_out_of_the_text_witness :
  WhereCondition.sql (Conditions.inArray "id" [JStr "1) OR (1=1"; JNum 2])
  = WhereCondition.sql (Conditions.inArray "id" [JNum 1; JNum 2]).
Proof.
  apply (proj1 (proj2 (proj2 (operands_stay_out_of_the_text "id")))).
  reflexivity.
Defined.

(** * Further properties of the schema normaliser *)

(** ** The type mapping *)

Lemma upper_char_idempotent (c : ascii) : upper_char (upper_char c) = upper_char c.
Proof. destruct c as [[] [] [] [] [] [] [] []]; reflexivity. Qed.

Lemma toUpperCase_idempotent (s : string) :
  toUpperCase (toUpperCase s) = toUpperCase s.
Proof.
  induction s as [|c s IH]; [reflexivity |].
  cbn [toUpperCase]. now rewrite upper_char_idempotent, IH.
Qed.

Lemma mapSQLiteType_number_or_string (s : string) :
  DataPantryDatabase.mapSQLiteType (JStr s) = inr "number"
  \/ DataPantryDatabase.mapSQLiteType (JStr s) = inr "string".
Proof.
  unfold DataPantryDatabase.mapSQLiteType.
  destruct (includes (toUpperCase s) "INT"); [now left |].
  destruct (String.eqb (toUpperCase s) "REAL"); [now left |].
  destruct (String.eqb (toUpperCase s) "TEXT"); now right.
Qed.

(** The type mapping ignores letter case, answers [number] or [string] for
    every string and nothing else, and throws a [TypeError] for a type that
    is not a string. *)
Theorem mapSQLiteType_total_on_strings :
  (forall s, DataPantryDatabase.mapSQLiteType (JStr s) = inr "number"
             \/ DataPantryDatabase.mapSQLiteType (JStr s) = inr "string")
  /\ (forall s, DataPantryDatabase.mapSQLiteType (JStr (toUpperCase s))
                = DataPantryDatabase.mapSQLiteType (JStr s))
  /\ (forall s s', toUpperCase s = toUpperCase s' ->
        DataPantryDatabase.mapSQLiteType (JStr s)
        = DataPantryDatabase.mapSQLiteType (JStr s'))
  /\ DataPantryDatabase.mapSQLiteType JUndefined = inl TypeError
  /\ DataPantryDatabase.mapSQLiteType JNull = inl TypeError
  /\ (forall z, DataPantryDatabase.mapSQLiteType (JNum z) = inl TypeError)
  /\ (forall b, DataPantryDatabase.mapSQLiteType (JBool b) = inl TypeError)
  /\ (forall o, DataPantryDatabase.mapSQLiteType (JObj o) = inl TypeError).
Proof.
  split; [exact mapSQLiteType_number_or_string |].
  unfold DataPantryDatabase.mapSQLiteType. repeat split; try reflexivity.
  - intros s. now rewrite toUpperCase_idempotent.
  - intros s s' H. now rewrite H.
Qed.

Lemma mapSQLiteType_total_on_strings_witness :
  DataPantryDatabase.mapSQLiteType (JStr "BigInt")
  = DataPantryDatabase.mapSQLiteType (JStr "bigint").
Proof.
  apply (proj1 (proj2 (proj2 mapSQLiteType_total_on_strings)) "BigInt" "bigint").
  reflexivity.
Defined.

(** ** Foreign keys *)

Lemma find_is_first_match (columnName : JsValue) (foreignKeys : list JsValue) :
  forallb isRow foreignKeys = true ->
  DataPantryDatabase.find columnName foreignKeys
  = inr match List.find (fun fk => strict_eq (field fk "from") columnName) foreignKeys with
        | Some fk => fk
        | None => JUndefined
        end.
Proof.
  induction foreignKeys as [|fk rest IH]; intros Hrows; [reflexivity |].
  cbn [forallb] in Hrows. apply andb_prop in Hrows. destruct Hrows as [Hfk Hrest].
  destruct fk as [| | | | |o]; try discriminate.
  cbn [DataPantryDatabase.find member bind Monad_either List.find field].
  destruct (strict_eq (prop o "from") columnName); [reflexivity | now apply IH].
Qed.

(** Among the foreign keys of a table the first one whose [from] is the column
    name is attached, with its [table] and [to]; a column that no foreign key
    starts from gets [null].  An entry that is [null] or [undefined] where the
    first entry stands makes the lookup throw. *)
Theorem findForeignKey_first_match (columnName : JsValue) (foreignKeys : list JsValue) :
  forallb isRow foreignKeys = true ->
  DataPantryDatabase.findForeignKey columnName foreignKeys
  = inr (option_map foreignKeyOf
           (List.find (fun fk => strict_eq (field fk "from") columnName) foreignKeys))
  /\ DataPantryDatabase.findForeignKey columnName (JNull :: foreignKeys) = inl TypeError
  /\ DataPantryDatabase.findForeignKey columnName (JUndefined :: foreignKeys)
     = inl TypeError.
Proof.
  intros Hrows. split; [| split; reflexivity].
  unfold DataPantryDatabase.findForeignKey.
  rewrite find_is_first_match by assumption. cbn [bind Monad_either].
  destruct (List.find _ foreignKeys) as [fk |] eqn:Efind; [| reflexivity].
  apply find_some in Efind. destruct Efind as [Hin _].
  apply (proj1 (forallb_forall isRow foreignKeys) Hrows) in Hin.
  destruct fk; try discriminate. reflexivity.
Qed.

Lemma findForeignKey_first_match_witness :
  DataPantryDatabase.findForeignKey (JStr "owner")
    [JObj [("from", JStr "pixel"); ("table", JStr "Pixels"); ("to", JStr "id")];
     JObj [("from", JStr "owner"); ("table", JStr "Users"); ("to", JStr "id")];
     JObj [("from", JStr "owner"); ("table", JStr "Groups"); ("to", JStr "gid")]]
  = inr (Some {| ForeignKey.tableName := JStr "Users";
                 ForeignKey.columnName := JStr "id" |}).
Proof.
  apply (proj1 (findForeignKey_first_match (JStr "owner")
                  [JObj [("from", JStr "pixel"); ("table", JStr "Pixels"); ("to", JStr "id")];
                   JObj [("from", JStr "owner"); ("table", JStr "Users"); ("to", JStr "id")];
                   JObj [("from", JStr "owner"); ("table", JStr "Groups"); ("to", JStr "gid")]]
                  Logic.eq_refl)).
Defined.

(** ** Column descriptions *)

Lemma columnDescription_inv (foreignKeys : list JsValue) (col : JsValue) (d : Column.t) :
  DataPantryDatabase.columnDescription foreignKeys col = inr d ->
  exists type datatype,
    member col "type" = inr type
    /\ DataPantryDatabase.mapSQLiteType type = inr datatype
    /\ Column.name d = field col "name"
    /\ Column.datatype d = datatype
    /\ Column.constraint d
       = (if truthy (field col "pk") then "primary"
          else if truthy (field col "notnull") then "unique" else "none")
    /\ Column.isRequired d = strict_eq (field col "notnull") (JNum 1).
Proof.
  unfold DataPantryDatabase.columnDescription. intros H.
  destruct col as [| | b | z | s | o];
    cbn [member bind Monad_either field DataPantryDatabase.mapSQLiteType] in *;
    try discriminate.
  destruct (DataPantryDatabase.mapSQLiteType (prop o "type")) as [e | datatype] eqn:Et;
    [discriminate |].

  destruct (DataPantryDatabase.findForeignKey (prop o "name") foreignKeys)
    as [e | fk]; [discriminate |].
  cbn [ret Monad_either] in H. injection H as <-.
  exists (prop o "type"), datatype. repeat split. exact Et.
Qed.

(** A described column has the datatype [number] or [string] and the
    constraint [primary], [unique] or [none]; a required column, one whose
    [notnull] is the number 1, never has the constraint [none], and a column
    with the constraint [none] is never required. *)
Theorem column_description_invariants (foreignKeys : list JsValue) (col : JsValue)
    (d : Column.t) :
  DataPantryDatabase.columnDescription foreignKeys col = inr d ->
  (Column.datatype d = "number" \/ Column.datatype d = "string")
  /\ (Column.constraint d = "primary" \/ Column.constraint d = "unique"
      \/ Column.constraint d = "none")
  /\ (Column.isRequired d = true -> Column.constraint d <> "none")
  /\ (Column.constraint d = "none" -> Column.isRequired d = false).
Proof.
  intros H. apply columnDescription_inv in H.
  destruct H as [type [datatype [_ [Hmap [_ [Hdt [Hc Hreq]]]]]]].
  assert (Hrequired : Column.isRequired d = true -> Column.constraint d <> "none").
  { rewrite Hc, Hreq. intros Hone.
    destruct (field col "notnull") as [| | | z | |]; try discriminate.
    cbn [strict_eq] in Hone. apply Z.eqb_eq in Hone. subst z.
    destruct (truthy (field col "pk")); cbn; discriminate. }
  split; [| split; [| split]].
  - rewrite Hdt. destruct type as [| | | | s |]; try discriminate.
    destruct (mapSQLiteType_number_or_string s) as [E | E];
      rewrite E in Hmap; injection Hmap as <-; [now left | now right].
  - rewrite Hc. destruct (truthy (field col "pk")); [now left |].
    destruct (truthy (field col "notnull")); [right; now left | right; now right].
  - exact Hrequired.
  - intros Hnone. destruct (Column.isRequired d) eqn:E; [| reflexivity].
    now destruct (Hrequired Logic.eq_refl).
Qed.

Lemma column_description_invariants_witness :
  exists d,
    DataPantryDatabase.columnDescription [] (pixelsColumn 0 "id" "INTEGER" 1 0) = inr d
    /\ Column.isRequired d = true
    /\ Column.constraint d <> "none".
Proof.
  eexists. split; [reflexivity |]. split; [reflexivity |].
  apply (proj1 (proj2 (proj2 (column_description_invariants []
                                (pixelsColumn 0 "id" "INTEGER" 1 0) _ Logic.eq_refl))));
    reflexivity.
Defined.

(** ** The schema of a well-formed catalog *)

Lemma mapM_total {A B : Type} (f : A -> JsError + B) (xs : list A) :
  (forall x, In x xs -> exists y, f x = inr y) ->
  exists ys, mapM f xs = inr ys.
Proof.
  induction xs as [|x xs IH]; intros H.
  - now exists [].
  - destruct (H x (or_introl Logic.eq_refl)) as [y Hy].
    destruct IH as [ys Hys]; [intros x' Hx'; apply H; now right |].
    exists (y :: ys). cbn [mapM bind Monad_either]. now rewrite Hy, Hys.
Qed.

Lemma mapM_fails_at_first {A B : Type} (f : A -> JsError + B)
    (before after : list A) (x : A) (e : JsError) :
  (forall x', In x' before -> exists y, f x' = inr y) ->
  f x = inl e ->
  mapM f (before ++ x :: after)%list = inl e.
Proof.
  induction before as [|x' before IH]; intros Hok Hx.
  - cbn [List.app mapM bind Monad_either]. now rewrite Hx.
  - destruct (Hok x' (or_introl Logic.eq_refl)) as [y Hy].
    cbn [List.app mapM bind Monad_either]. rewrite Hy, IH; [reflexivity | | exact Hx].
    intros x'' Hin. apply Hok. now right.
Qed.

Lemma columnDescription_describable (foreignKeys : list JsValue) (col : JsValue) :
  forallb isRow foreignKeys = true ->
  describable col = true ->
  exists d, DataPantryDatabase.columnDescription foreignKeys col = inr d.
Proof.
  intros Hrows Hcol. destruct col as [| | | | |o]; try discriminate.
  cbn [describable] in Hcol.
  destruct (prop o "type") as [| | | | type |] eqn:Etype; try discriminate.
  destruct (findForeignKey_rows (prop o "name") foreignKeys Hrows) as [fk Hfk].
  destruct (mapSQLiteType_number_or_string type) as [Hmap | Hmap];
    unfold DataPantryDatabase.columnDescription;
    cbn [member bind Monad_either]; rewrite Etype, Hmap;
    cbn [bind Monad_either]; rewrite Hfk; eexists; reflexivity.
Qed.

Lemma column_names (foreignKeys columns : list JsValue) (ds : list Column.t) :
  Forall2 (fun col d => DataPantryDatabase.columnDescription foreignKeys col = inr d)
          columns ds ->
  map Column.name ds = map (fun col => field col "name") columns.
Proof.
  induction 1 as [|col d columns ds Hd _ IH]; [reflexivity |].
  cbn [map]. rewrite IH. f_equal.
  apply columnDescription_inv in Hd.
  now destruct Hd as [type [datatype [_ [_ [Hname _]]]]].
Qed.

Lemma tableSchema_well_formed (sql : Executor) (row : JsValue)
    (columns foreignKeys : list JsValue) :
  isRow row = true ->
  sql (tableInfoQuery (field row "name")) [] = inr columns ->
  forallb describable columns = true ->
  sql (foreignKeyListQuery (field row "name")) [] = inr foreignKeys ->
  forallb isRow foreignKeys = true ->
  exists t,
    DataPantryDatabase.tableSchema sql row = inr t
    /\ Table.name t = field row "name"
    /\ map Column.name (Table.columns t) = map (fun col => field col "name") columns.
Proof.
  intros Hrow Hcols Hdesc Hfks Hrows.
  destruct row as [| | | | |o]; try discriminate. cbn [field] in *.
  destruct (mapM_total (DataPantryDatabase.columnDescription foreignKeys) columns)
    as [ds Hds].
  { intros col Hin. apply columnDescription_describable; [assumption |].
    now apply (proj1 (forallb_forall describable columns) Hdesc). }
  unfold DataPantryDatabase.tableSchema, tableInfoQuery, foreignKeyListQuery in *.
  cbn [member bind Monad_either]. rewrite Hcols, Hfks, Hds.
  eexists. split; [reflexivity |]. split; [reflexivity |].
  cbn [Table.columns]. apply column_names with (foreignKeys := foreignKeys).
  now apply mapM_inr.
Qed.

(** On a catalog that answers the table list with rows and, for each of
    them, the column list with objects that have a string [type] and the
    foreign key list with rows, [schema] succeeds: it describes one table
    for each row of the table list, in the order of the list and under the
    row's name, with one column for each catalog column, in the catalog's
    order and under the column's name. *)
Theorem schema_of_well_formed_catalog (sql : Executor) (rows : list JsValue) :
  sql DataPantryDatabase.tablesQuery [] = inr rows ->
  forallb isRow rows = true ->
  (forall row, In row rows ->
     exists columns foreignKeys,
       sql (tableInfoQuery (field row "name")) [] = inr columns
       /\ forallb describable columns = true
       /\ sql (foreignKeyListQuery (field row "name")) [] = inr foreignKeys
       /\ forallb isRow foreignKeys = true) ->
  exists s,
    DataPantryDatabase.schema sql = inr s
    /\ map Table.name (Schema.tables s) = map (fun row => field row "name") rows
    /\ Forall2
         (fun row t =>
            exists columns,
              sql (tableInfoQuery (field row "name")) [] = inr columns
              /\ map Column.name (Table.columns t)
                 = map (fun col => field col "name") columns)
         rows (Schema.tables s).
Proof.
  intros Htables Hrows Hcatalog.
  assert (Hall : exists ts,
             mapM (DataPantryDatabase.tableSchema sql) rows = inr ts
             /\ map Table.name ts = map (fun row => field row "name") rows
             /\ Forall2
                  (fun row t =>
                     exists columns,
                       sql (tableInfoQuery (field row "name")) [] = inr columns
                       /\ map Column.name (Table.columns t)
                          = map (fun col => field col "name") columns)
                  rows ts).
  { clear Htables. induction rows as [|row rows IH].
    - exists []. repeat split. constructor.
    - cbn [forallb] in Hrows. apply andb_prop in Hrows. destruct Hrows as [Hrow Hrows].
      destruct (Hcatalog row (or_introl Logic.eq_refl))
        as [columns [foreignKeys [Hc [Hd [Hf Hr]]]]].
      destruct (tableSchema_well_formed sql row columns foreignKeys Hrow Hc Hd Hf Hr)
        as [t [Ht [Hname Hnames]]].
      destruct (IH Hrows) as [ts [Hts [Hn Hf2]]];
        [intros r Hin; apply Hcatalog; now right |].
      exists (t :: ts). cbn [mapM bind Monad_either map]. rewrite Ht, Hts.
      split; [reflexivity |]. split; [now rewrite Hname, Hn |].
      constructor; [| exact Hf2]. now exists columns. }
  destruct Hall as [ts [Hts [Hn Hf2]]].
  exists {| Schema.tables := ts |}.
  unfold DataPantryDatabase.schema. cbn [bind Monad_either].
  rewrite Htables, Hts. repeat split; assumption.
Qed.

Lemma schema_of_well_formed_catalog_witness :
  exists s,
    DataPantryDatabase.schema pixelsCatalog = inr s
    /\ map Table.name (Schema.tables s) = [JStr "Pixels"].
Proof.
  destruct (schema_of_well_formed_catalog pixelsCatalog
              [JObj [("name", JStr "Pixels")]] Logic.eq_refl Logic.eq_refl)
    as [s [Hs [Hn _]]].
  - intros row [<- | []]. eexists. eexists.
    split; [reflexivity |]. split; [reflexivity |]. split; reflexivity.
  - exists s. split; [exact Hs | exact Hn].
Defined.

(** [schema] never answers a partial schema: it fails with the error of the
    table list, or with the error of the first table whose description
    fails, and the description of a table fails with the error of its column
    list or of its foreign key list. *)
Theorem schema_fails_with_first_error (sql : Executor) (e : JsError) :
  (sql DataPantryDatabase.tablesQuery [] = inl e ->
   DataPantryDatabase.schema sql = inl e)
  /\ (forall before after row,
        sql DataPantryDatabase.tablesQuery [] = inr (before ++ row :: after)%list ->
        (forall r, In r before -> exists t, DataPantryDatabase.tableSchema sql r = inr t) ->
        DataPantryDatabase.tableSchema sql row = inl e ->
        DataPantryDatabase.schema sql = inl e)
  /\ (forall row,
        isRow row = true ->
        sql (tableInfoQuery (field row "name")) [] = inl e ->
        DataPantryDatabase.tableSchema sql row = inl e)
  /\ (forall row columns,
        isRow row = true ->
        sql (tableInfoQuery (field row "name")) [] = inr columns ->
        sql (foreignKeyListQuery (field row "name")) [] = inl e ->
        DataPantryDatabase.tableSchema sql row = inl e).
Proof.
  unfold DataPantryDatabase.schema. split; [| split; [| split]].
  - intros H. now rewrite H.
  - intros before after row Htables Hbefore Hrow.
    cbn [bind Monad_either]. rewrite Htables.
    now rewrite (mapM_fails_at_first _ before after row e Hbefore Hrow).
  - intros row Hrow H. destruct row; try discriminate.
    unfold DataPantryDatabase.tableSchema, tableInfoQuery in *.
    cbn [member bind Monad_either field] in *. now rewrite H.
  - intros row columns Hrow Hc Hf. destruct row; try discriminate.
    unfold DataPantryDatabase.tableSchema, tableInfoQuery, foreignKeyListQuery in *.
    cbn [member bind Monad_either field] in *. now rewrite Hc, Hf.
Qed.

Lemma schema_fails_with_first_error_witness :
  DataPantryDatabase.schema
    (answering DataPantryDatabase.tablesQuery [JObj [("name", JStr "Pixels")]])
  = inl (Error "Query failed").
Proof.
  apply (proj1 (proj2 (schema_fails_with_first_error
                         (answering DataPantryDatabase.tablesQuery
                            [JObj [("name", JStr "Pixels")]])
                         (Error "Query failed")))
           [] [] (JObj [("name", JStr "Pixels")]) Logic.eq_refl).
  - intros r [].
  - apply (proj1 (proj2 (proj2 (schema_fails_with_first_error
                                  (answering DataPantryDatabase.tablesQuery
                                     [JObj [("name", JStr "Pixels")]])
                                  (Error "Query failed"))))); reflexivity.
Defined.

Lemma schema_columns_witness :
  exists rows,
    pixelsCatalog DataPantryDatabase.tablesQuery [] = inr rows
    /\ List.length rows = 1.
Proof.
  destruct (schema_columns pixelsCatalog _ Logic.eq_refl) as [rows [Hrows Hall]].
  exists rows. split; [exact Hrows |].
  apply Forall2_length in Hall. exact Hall.
Defined.

(** * The calls the methods make *)

(** The traced methods answer what the methods answer. *)
Lemma traced_outcomes (sql : Executor) (b : QueryBuilder.t) :
  outcome (Thenable.execute sql b) = QueryBuilder.execute sql b
  /\ outcome (Thenable.await sql b) = QueryBuilder.await sql b
  /\ outcome (Thenable.first sql b) = SelectQueryBuilder.first sql b
  /\ outcome (Thenable.count sql b) = SelectQueryBuilder.count sql b.
Proof.
  unfold Thenable.await, Thenable.then_, Thenable.first, Thenable.count,
    Thenable.execute, callSql, local, QueryBuilder.await, QueryBuilder.execute,
    SelectQueryBuilder.first, SelectQueryBuilder.count.
  cbn [outcome sent bind ret Monad_Traced Monad_either].
  unfold QueryBuilder.execute.
  repeat split; now destruct (sql _ (QueryBuilder.params b)).
Qed.

(** ** Awaiting a builder *)

(** [then], [catch] and [finally] each send the statement of the builder to
    the database once, with its bound parameters, whatever the callbacks do.
    [then] answers with [resolve] of the rows or with [reject] of the
    failure, [catch] keeps the rows and answers with [reject] of a failure,
    and [finally] keeps the outcome unless its callback throws. *)
Theorem thenable_sends_once (A : Type) (sql : Executor) (b : QueryBuilder.t)
    (resolve : list JsValue -> JsError + A) (reject : JsError -> JsError + A)
    (recover : JsError -> JsError + list JsValue) (callback : unit -> JsError + unit) :
  sent (Thenable.then_ sql b resolve reject)
    = [(QueryBuilder.query b, QueryBuilder.params b)]
  /\ sent (Thenable.catch sql b recover)
    = [(QueryBuilder.query b, QueryBuilder.params b)]
  /\ sent (Thenable.finally sql b callback)
    = [(QueryBuilder.query b, QueryBuilder.params b)]
  /\ (forall rows, QueryBuilder.execute sql b = inr rows ->
        outcome (Thenable.then_ sql b resolve reject) = resolve rows
        /\ outcome (Thenable.catch sql b recover) = inr rows)
  /\ (forall e, QueryBuilder.execute sql b = inl e ->
        outcome (Thenable.then_ sql b resolve reject) = reject e
        /\ outcome (Thenable.catch sql b recover) = recover e)
  /\ (forall u, callback tt = inr u ->
        outcome (Thenable.finally sql b callback) = QueryBuilder.execute sql b)
  /\ (forall e, callback tt = inl e ->
        outcome (Thenable.finally sql b callback) = inl e).
Proof.
  unfold Thenable.then_, Thenable.catch, Thenable.finally, Thenable.execute,
    callSql, QueryBuilder.execute.
  cbn [outcome sent].
  repeat split; intros; rewrite H; reflexivity.
Qed.

Lemma thenable_sends_once_witness :
  outcome (Thenable.catch (fun _ _ => inl (Error "Query failed"))
             (SelectQueryBuilder.from (DataPantryDatabase.select []) "T")
             (fun _ => inr []))
  = inr [].
Proof.
  destruct (thenable_sends_once unit
              (fun _ _ => inl (Error "Query failed"))
              (SelectQueryBuilder.from (DataPantryDatabase.select []) "T")
              (fun _ => inr tt) (fun _ => inr tt) (fun _ => inr [])
              (fun _ => inr tt)) as [_ [_ [_ [_ [Hrejected _]]]]].
  exact (proj2 (Hrejected (Error "Query failed") Logic.eq_refl)).
Defined.



(** ** The statements [schema] sends *)

Lemma forEach_outcome {A B : Type} (f : A -> Traced B) (xs : list A) :
  outcome (forEach f xs) = mapM (fun x => outcome (f x)) xs.
Proof.
  induction xs as [|x xs IH]; [reflexivity |].
  cbn [forEach mapM bind ret Monad_Traced Monad_either].
  destruct (outcome (f x)) as [e | y]; [reflexivity |].
  cbn [outcome]. rewrite <- IH.
  destruct (outcome (forEach f xs)); reflexivity.
Qed.

Lemma tableSchema_outcome (sql : Executor) (row : JsValue) :
  outcome (Thenable.tableSchema sql row) = DataPantryDatabase.tableSchema sql row.
Proof.
  unfold Thenable.tableSchema, DataPantryDatabase.tableSchema, callSql, local.
  cbn [bind ret Monad_Traced Monad_either outcome sent].
  destruct (member row "name") as [e | name]; [reflexivity |]. cbn [outcome].
  destruct (sql ("PRAGMA table_info(" ++ quoted (toString name) ++ ")") [])
    as [e | columns]; [reflexivity |]. cbn [outcome].
  destruct (sql ("PRAGMA foreign_key_list(" ++ quoted (toString name) ++ ")") [])
    as [e | foreignKeys]; [reflexivity |]. cbn [outcome].
  destruct (mapM (DataPantryDatabase.columnDescription foreignKeys) columns);
    reflexivity.
Qed.

Lemma tableSchema_sent (sql : Executor) (row : JsValue) :
  Forall (fun call => snd call = []) (sent (Thenable.tableSchema sql row))
  /\ (forall t, outcome (Thenable.tableSchema sql row) = inr t ->
        sent (Thenable.tableSchema sql row)
        = [(tableInfoQuery (Table.name t), []);
           (foreignKeyListQuery (Table.name t), [])]).
Proof.
  unfold Thenable.tableSchema, tableInfoQuery, foreignKeyListQuery, callSql, local.
  cbn [bind ret Monad_Traced outcome sent].
  destruct (member row "name") as [e | name];
    [split; [constructor | discriminate] |]. cbn [outcome sent].
  destruct (sql ("PRAGMA table_info(" ++ quoted (toString name) ++ ")") [])
    as [e | columns];
    [split; [repeat constructor | discriminate] |]. cbn [outcome sent].
  destruct (sql ("PRAGMA foreign_key_list(" ++ quoted (toString name) ++ ")") [])
    as [e | foreignKeys];
    [split; [repeat constructor | discriminate] |]. cbn [outcome sent].
  destruct (mapM (DataPantryDatabase.columnDescription foreignKeys) columns)
    as [e | cols];
    cbn [outcome sent List.app]; (split; [repeat constructor |]);
    [discriminate |].
  intros t Ht. injection Ht as <-. reflexivity.
Qed.

Lemma forEach_tableSchema_sent (sql : Executor) (rows : list JsValue) :
  Forall (fun call => snd call = [])
         (sent (forEach (Thenable.tableSchema sql) rows))
  /\ (forall ts, outcome (forEach (Thenable.tableSchema sql) rows) = inr ts ->
        sent (forEach (Thenable.tableSchema sql) rows)
        = flat_map (fun name => [(tableInfoQuery name, []);
                                 (foreignKeyListQuery name, [])])
                   (map Table.name ts)).
Proof.
  induction rows as [|row rows [IHall IHsent]].
  - split; [constructor |]. intros ts H. injection H as <-. reflexivity.
  - destruct (tableSchema_sent sql row) as [Hall Hsent].
    cbn [forEach bind ret Monad_Traced].
    destruct (outcome (Thenable.tableSchema sql row)) as [e | t] eqn:Et;
      cbn [outcome sent]; [split; [exact Hall | discriminate] |].
    destruct (outcome (forEach (Thenable.tableSchema sql) rows)) as [e | ts'] eqn:Ets;
      cbn [outcome sent]; rewrite ?app_nil_r.
    + split; [apply Forall_app; now split | discriminate].
    + split; [apply Forall_app; now split |].
      intros ts H. injection H as <-.
      cbn [map flat_map]. now rewrite (Hsent t Logic.eq_refl), (IHsent ts' Logic.eq_refl).
Qed.

(** [schema] asks for the table list first and then, table after table in the
    order of the list, for the columns and for the foreign keys of the table:
    a schema of [n] tables has taken [1 + 2 * n] statements, each without
    bound parameter.  Whatever the outcome is, the table list comes first and
    no statement carries a parameter. *)
Theorem schema_sends_catalog_queries (sql : Executor) :
  (forall s, outcome (Thenable.schema sql) = inr s ->
     sent (Thenable.schema sql) = catalogQueries (map Table.name (Schema.tables s))
     /\ List.length (sent (Thenable.schema sql))
        = 1 + 2 * List.length (Schema.tables s))
  /\ outcome (Thenable.schema sql) = DataPantryDatabase.schema sql
  /\ Forall (fun call => snd call = []) (sent (Thenable.schema sql))
  /\ (exists later,
        sent (Thenable.schema sql) = (DataPantryDatabase.tablesQuery, []) :: later).
Proof.
  unfold Thenable.schema, DataPantryDatabase.schema, callSql, catalogQueries.
  cbn [bind ret Monad_Traced Monad_either outcome sent].
  destruct (sql DataPantryDatabase.tablesQuery []) as [e | rows]; cbn [outcome sent].
  - split; [discriminate |]. split; [reflexivity |].
    split; [repeat constructor | now exists []].
  - destruct (forEach_tableSchema_sent sql rows) as [Hall Hsent].
    assert (Hout : outcome (forEach (Thenable.tableSchema sql) rows)
                   = mapM (DataPantryDatabase.tableSchema sql) rows).
    { rewrite forEach_outcome. clear. induction rows as [|row rows IH]; [reflexivity |].
      cbn [mapM]. now rewrite tableSchema_outcome, IH. }
    rewrite <- Hout.
    destruct (outcome (forEach (Thenable.tableSchema sql) rows)) as [e | ts] eqn:Ets;
      cbn [outcome sent List.app]; rewrite ?app_nil_r.
    + split; [discriminate |]. split; [reflexivity |].
      split; [constructor; [reflexivity | exact Hall] | eexists; reflexivity].
    + split; [| split; [reflexivity |
        split; [constructor; [reflexivity | exact Hall] | eexists; reflexivity]]].
      intros s Hs. injection Hs as <-. cbn [Schema.tables].
      rewrite (Hsent ts Logic.eq_refl). split; [reflexivity |].
      cbn [List.length]. f_equal.
      clear. induction ts as [|t ts IH]; [reflexivity |].
      cbn [map flat_map List.app List.length]. rewrite IH. lia.
Qed.

Lemma schema_sends_catalog_queries_witness :
  sent (Thenable.schema pixelsCatalog)
  = [(DataPantryDatabase.tablesQuery, []);
     ("PRAGMA table_info(" ++ dq ++ "Pixels" ++ dq ++ ")", []);
     ("PRAGMA foreign_key_list(" ++ dq ++ "Pixels" ++ dq ++ ")", [])].
Proof.
  destruct (proj1 (schema_sends_catalog_queries pixelsCatalog) _ Logic.eq_refl)
    as [Hsent _].
  rewrite Hsent. reflexivity.
Defined.

(** * The transport *)

(** [sql] hands on a failure of [fetch].  For a response that is not ok it
    never answers a value: it throws what reading the body throws, or an
    error whose message is the [statusMessage] of the body when that is a
    text that is not empty, and [Query failed] when the body has no
    [statusMessage] or a falsy one.  For an ok response it answers the
    [result] of the body as it is, [undefined] when the body has none, and
    throws a [TypeError] when the body is [null]. *)
Theorem sql_outcomes (fetch : Http.Fetch) (db : DataPantry.Database)
    (query : string) (params : list JsValue) :
  (forall e, fetch (requestOf db query params) = inl e ->
     DataPantry.sql fetch db query params = inl e)
  /\ (forall response,
        fetch (requestOf db query params) = inr response ->
        Http.ok response = false ->
        (forall v, DataPantry.sql fetch db query params <> inr v)
        /\ (forall fields message,
              Http.json response = inr (Http.ObjectBody fields) ->
              Http.fieldOf fields "statusMessage" = Http.JsonValue (JStr message) ->
              message <> "" ->
              DataPantry.sql fetch db query params = inl (Error message))
        /\ (forall fields,
              Http.json response = inr (Http.ObjectBody fields) ->
              Http.jsonTruthy (Http.fieldOf fields "statusMessage") = false ->
              DataPantry.sql fetch db query params = inl (Error "Query failed")))
  /\ (forall response,
        fetch (requestOf db query params) = inr response ->
        Http.ok response = true ->
        (forall fields,
           Http.json response = inr (Http.ObjectBody fields) ->
           DataPantry.sql fetch db query params = inr (Http.fieldOf fields "result"))
        /\ (Http.json response = inr Http.NullBody ->
            DataPantry.sql fetch db query params = inl TypeError)).
Proof.
  unfold DataPantry.sql. fold (requestOf db query params).
  split; [| split].
  - intros e H. now rewrite H.
  - intros response Hfetch Hok. rewrite Hfetch.
    cbn [bind Monad_either]. rewrite Hok. cbn [negb].
    split; [| split].
    + intros v. destruct (Http.json response) as [e | body]; [discriminate |].
      cbn [bind Monad_either].
      destruct (Http.bodyMember body "statusMessage"); discriminate.
    + intros fields message Hjson Hm Hne. rewrite Hjson.
      cbn [bind Monad_either Http.bodyMember]. rewrite Hm.
      cbn [Http.jsonTruthy truthy].
      destruct (String.eqb_spec message ""); [contradiction | reflexivity].
    + intros fields Hjson Hfalsy. rewrite Hjson.
      cbn [bind Monad_either Http.bodyMember]. now rewrite Hfalsy.
  - intros response Hfetch Hok. rewrite Hfetch.
    cbn [bind Monad_either]. rewrite Hok. cbn [negb].
    split.
    + intros fields Hjson. now rewrite Hjson.
    + intros Hjson. now rewrite Hjson.
Qed.

Lemma sql_outcomes_witness :
  DataPantry.sql
    (fun _ => inr {| Http.ok := false;
                     Http.json := inr (Http.ObjectBody
                                         [("statusMessage",
                                           Http.JsonValue (JStr "no such table: T"))]) |})
    (DataPantry.database "key" None) "SELECT * FROM T" []
  = inl (Error "no such table: T")
  /\ DataPantry.sql
       (fun _ => inr {| Http.ok := true;
                        Http.json := inr (Http.ObjectBody
                                            [("rows", Http.JsonArray [])]) |})
       (DataPantry.database "key" None) "SELECT * FROM T" []
     = inr (Http.JsonValue JUndefined).
Proof.
  split.
  - destruct (proj1 (proj2 (sql_outcomes
                (fun _ => inr {| Http.ok := false;
                                 Http.json := inr (Http.ObjectBody
                                                     [("statusMessage",
                                                       Http.JsonValue
                                                         (JStr "no such table: T"))]) |})
                (DataPantry.database "key" None) "SELECT * FROM T" []))
              _ Logic.eq_refl Logic.eq_refl) as [_ [Hmessage _]].
    apply (Hmessage [("statusMessage", Http.JsonValue (JStr "no such table: T"))]);
      [reflexivity | reflexivity | discriminate].
  - destruct (proj2 (proj2 (sql_outcomes
                (fun _ => inr {| Http.ok := true;
                                 Http.json := inr (Http.ObjectBody
                                                     [("rows", Http.JsonArray [])]) |})
                (DataPantry.database "key" None) "SELECT * FROM T" []))
              _ Logic.eq_refl Logic.eq_refl) as [Hresult _].
    apply (Hresult [("rows", Http.JsonArray [])]). reflexivity.
Defined.
